(** * AmbedkarGPT: the RAG service, its CLI twin and the HTTP endpoints

    A shallow embedding of [backend/rag_service.py], of the [setup]/[ask]
    methods of [backend/ambedkar_qa_cli.py] and of the three AmbedkarGPT
    endpoints of [backend/server.py].

    The Python code is an orchestration of library capabilities (document
    loader, text splitter, embedding model, Chroma vector store, Ollama
    language model).  Those capabilities are parameters of the development
    (record [Env]); each of them may raise and may change the outside world.
    The methods themselves are written in a small monad that threads the
    receiver object ([self]), the outside world and the list of effects
    performed (log records, console output, library calls), and in which an
    exception aborts the rest of a block while keeping every mutation made
    so far, as in Python. *)

From Stdlib Require Import String Ascii List Bool Arith Lia.
From stdpp Require Import base option list gmap pretty.
Import ListNotations.
Local Open Scope string_scope.

(** ** Python values used by the code *)

(** Instances of [Exception], by the classes the code raises itself or
    tells apart.  [RuntimeError] is an instance of that very class;
    [RuntimeErrorSubclass] is an instance of a proper subclass of it
    ([NotImplementedError], [RecursionError], or one a library derives from
    [RuntimeError]), which a clause [except RuntimeError] catches as well.
    [LibraryError] is an instance of any other class, one that derives from
    none of the three named here. *)
Inductive PyExc : Type :=
| FileNotFoundError (msg : string)
| RuntimeError (msg : string)
| RuntimeErrorSubclass (cls msg : string)
| AttributeError (msg : string)
| LibraryError (cls msg : string).

(** [str(e)] *)
Definition exc_str (e : PyExc) : string :=
  match e with
  | FileNotFoundError m | RuntimeError m | AttributeError m => m
  | RuntimeErrorSubclass _ m => m
  | LibraryError _ m => m
  end.

(** [isinstance(e, RuntimeError)], the test of a clause
    [except RuntimeError]. *)
Definition is_RuntimeError (e : PyExc) : bool :=
  match e with
  | RuntimeError _ | RuntimeErrorSubclass _ _ => true
  | _ => false
  end.

(** A langchain [Document]: [page_content] and the [metadata] dict. *)
Record Document : Type := mkDocument {
  page_content : string;
  metadata : list (string * string)
}.

(** The line feed character, written backslash-n in Python source. *)
Definition LF : string := String (ascii_of_nat 10) EmptyString.

(** [sep.join(parts)] *)
Fixpoint join (sep : string) (parts : list string) : string :=
  match parts with
  | [] => ""
  | [p] => p
  | p :: rest => p ++ sep ++ join sep rest
  end.

(** *** Paths *)

(** [a / b] on [pathlib.Path], paths being kept as their string form. *)
Definition path_join (a b : string) : string := a ++ "/" ++ b.

(** *** Prompt templates

    [ChatPromptTemplate.from_template] reads the template as a Python format
    string; the template of this program only has plain [{name}] fields, and
    that is the fragment modelled: a template is cut into literal pieces and
    named fields, and formatting looks every field up in the input dict. *)
Inductive Piece : Type :=
| Lit (s : string)
| Field (name : string).

Definition lit_piece (acc : string) : list Piece :=
  match acc with
  | EmptyString => []
  | _ => [Lit acc]
  end.

(** [acc] is the piece being read, [in_field] tells whether a brace is open. *)
Fixpoint parse_template (t : string) (in_field : bool) (acc : string)
  : list Piece :=
  match t with
  | EmptyString => if in_field then [] else lit_piece acc
  | String c t' =>
      if in_field then
        if Ascii.eqb c "}" then Field acc :: parse_template t' false ""
        else parse_template t' true (acc ++ String c "")
      else
        if Ascii.eqb c "{" then lit_piece acc ++ parse_template t' true ""
        else parse_template t' false (acc ++ String c "")
  end.

Definition from_template (t : string) : list Piece :=
  parse_template t false "".

(** [input_variables] of a template: its field names, in order. *)
Fixpoint input_variables (ps : list Piece) : list string :=
  match ps with
  | [] => []
  | Lit _ :: r => input_variables r
  | Field n :: r => n :: input_variables r
  end.

Fixpoint dict_get (k : string) (d : list (string * string)) : option string :=
  match d with
  | [] => None
  | (k', v) :: r => if String.eqb k k' then Some v else dict_get k r
  end.

(** Formatting; a field missing from the input is a [KeyError]. *)
Fixpoint format_pieces (ps : list Piece) (d : list (string * string))
  : PyExc + string :=
  match ps with
  | [] => inr ""
  | Lit s :: r =>
      match format_pieces r d with
      | inl e => inl e
      | inr tail => inr (s ++ tail)
      end
  | Field n :: r =>
      match dict_get n d with
      | None => inl (LibraryError "KeyError" n)
      | Some v =>
          match format_pieces r d with
          | inl e => inl e
          | inr tail => inr (v ++ tail)
          end
      end
  end.

(** A chat prompt value: the list of messages handed to the model.  A
    template built by [from_template] yields one human message. *)
Inductive Message : Type :=
| HumanMessage (content : string).

Definition PromptValue : Type := list Message.

(** The template literal shared by the service and the CLI. *)
Definition template : string :=
  "Answer the question based on the following context from Dr. B.R. Ambedkar's speech:"
  ++ LF ++ LF ++ "Context: {context}"
  ++ LF ++ LF ++ "Question: {question}"
  ++ LF ++ LF ++ "Answer: ".

(** [format_docs], identical in both files.  The separator literal of the
    source is written with doubled backslashes, so it is the four
    characters backslash, n, backslash, n. *)
Definition format_docs (docs : list Document) : string :=
  join "\n\n" (map page_content docs).

(** [StrOutputParser]: a string output passes through unchanged. *)
Definition StrOutputParser (out : string) : string := out.

(** ** Effects *)

Inductive LogLevel : Type := INFO | ERROR.

(** Settings given to [OllamaLLM]; the temperature 0.7 is kept in tenths. *)
Record OllamaConfig : Type := mkOllamaConfig {
  model : string;
  temperature_tenths : nat;
  base_url : option string
}.

Inductive Event : Type :=
| EvLog (lvl : LogLevel) (msg : string)
| EvPrint (msg : string)
| EvLoad (path : string)
| EvSplit (chunk_size chunk_overlap : nat) (separator : string)
| EvEmbeddings (model_name : string)
| EvChromaOpen (persist_directory : string)
| EvChromaFromDocuments (documents : list Document) (persist_directory : string)
| EvOllama (cfg : OllamaConfig)
| EvRetrieve (k : nat) (query : string)
| EvGenerate (prompt : PromptValue).

(** Outcome of running a block: result or exception, the receiver and the
    world afterwards, and the effects performed, oldest first. *)
Record Out (S W A : Type) : Type := mkOut {
  res : PyExc + A;
  self_of : S;
  world_of : W;
  events : list Event
}.
Arguments mkOut {S W A} _ _ _ _.
Arguments res {S W A} _.
Arguments self_of {S W A} _.
Arguments world_of {S W A} _.
Arguments events {S W A} _.

Definition M (S W A : Type) : Type := S -> W -> Out S W A.

Definition ret {S W A} (a : A) : M S W A :=
  fun s w => mkOut (inr a) s w [].

Definition raise {S W A} (e : PyExc) : M S W A :=
  fun s w => mkOut (inl e) s w [].

Definition bind {S W A B} (m : M S W A) (k : A -> M S W B) : M S W B :=
  fun s w =>
    match m s w with
    | mkOut (inl e) s1 w1 tr => mkOut (inl e) s1 w1 tr
    | mkOut (inr a) s1 w1 tr =>
        match k a s1 w1 with
        | mkOut r s2 w2 tr' => mkOut r s2 w2 (tr ++ tr')
        end
    end.

(** [try: m except Exception as e: h e] *)
Definition try_except {S W A} (m : M S W A) (h : PyExc -> M S W A) : M S W A :=
  fun s w =>
    match m s w with
    | mkOut (inr a) s1 w1 tr => mkOut (inr a) s1 w1 tr
    | mkOut (inl e) s1 w1 tr =>
        match h e s1 w1 with
        | mkOut r s2 w2 tr' => mkOut r s2 w2 (tr ++ tr')
        end
    end.

Notation "x <- m ;; k" := (bind m (fun x => k))
  (at level 20, m at level 99, k at level 200, only parsing).
Notation "'do' m ;; k" := (bind m (fun _ => k))
  (at level 20, m at level 99, k at level 200, only parsing).

Definition emit {S W} (ev : Event) : M S W unit :=
  fun s w => mkOut (inr tt) s w [ev].

Definition get_self {S W} : M S W S :=
  fun s w => mkOut (inr s) s w [].

Definition set_self {S W} (f : S -> S) : M S W unit :=
  fun s w => mkOut (inr tt) (f s) w [].

(** A read of the outside world that cannot change it ([Path.exists]). *)
Definition observe {S W A} (f : W -> A) : M S W A :=
  fun s w => mkOut (inr (f w)) s w [].

(** A library call: recorded, may raise, may change the world. *)
Definition call {S W A} (ev : Event) (f : W -> (PyExc + A) * W) : M S W A :=
  fun s w => match f w with (r, w') => mkOut r s w' [ev] end.

Definition lift_result {S W A} (r : PyExc + A) : M S W A :=
  fun s w => mkOut r s w [].

Definition logger_info {S W} (msg : string) : M S W unit := emit (EvLog INFO msg).
Definition logger_error {S W} (msg : string) : M S W unit := emit (EvLog ERROR msg).
Definition print {S W} (msg : string) : M S W unit := emit (EvPrint msg).

(** ** Library capabilities

    [W] is the outside world (file system, model servers, the persisted
    collection), [Emb], [VS] and [L] are the handles of an embedding model, a
    vector store and a language model.  Every capability may raise and may
    change the world; [path_exists] only reads it. *)
Record Env (W Emb VS L : Type) : Type := mkEnv {
  (** [Path(__file__).parent.parent] *)
  ROOT_DIR : string;
  (** [path.exists()] *)
  path_exists : string -> W -> bool;
  (** [TextLoader(path).load()] *)
  TextLoader_load : string -> W -> (PyExc + list Document) * W;
  (** [CharacterTextSplitter(chunk_size, chunk_overlap, separator).split_documents(docs)] *)
  split_documents :
    nat -> nat -> string -> list Document -> W -> (PyExc + list Document) * W;
  (** [HuggingFaceEmbeddings(model_name=...)] *)
  HuggingFaceEmbeddings : string -> W -> (PyExc + Emb) * W;
  (** [Chroma(persist_directory=..., embedding_function=...)] *)
  Chroma_open : string -> option Emb -> W -> (PyExc + VS) * W;
  (** [Chroma.from_documents(documents=..., embedding=..., persist_directory=...)] *)
  Chroma_from_documents :
    list Document -> option Emb -> string -> W -> (PyExc + VS) * W;
  (** [OllamaLLM(model=..., temperature=..., base_url=...)] *)
  OllamaLLM : OllamaConfig -> W -> (PyExc + L) * W;
  (** [vectorstore.as_retriever(search_kwargs={"k": k}).invoke(query)] *)
  retriever_invoke : VS -> nat -> string -> W -> (PyExc + list Document) * W;
  (** [llm.invoke(prompt_value)] *)
  llm_invoke : L -> PromptValue -> W -> (PyExc + string) * W
}.
Arguments ROOT_DIR {W Emb VS L} _.
Arguments path_exists {W Emb VS L} _ _ _.
Arguments TextLoader_load {W Emb VS L} _ _ _.
Arguments split_documents {W Emb VS L} _ _ _ _ _ _.
Arguments HuggingFaceEmbeddings {W Emb VS L} _ _ _.
Arguments Chroma_open {W Emb VS L} _ _ _ _.
Arguments Chroma_from_documents {W Emb VS L} _ _ _ _ _.
Arguments OllamaLLM {W Emb VS L} _ _ _.
Arguments retriever_invoke {W Emb VS L} _ _ _ _ _.
Arguments llm_invoke {W Emb VS L} _ _ _ _.

(** [vectorstore.as_retriever(search_kwargs={"k": k})] *)
Record Retriever (VS : Type) : Type := mkRetriever {
  retriever_store : VS;
  retriever_k : nat
}.
Arguments mkRetriever {VS} _ _.
Arguments retriever_store {VS} _.
Arguments retriever_k {VS} _.

(** The chain [{"context": retriever | format_docs, "question":
    RunnablePassthrough()} | prompt | llm | StrOutputParser()]. *)
Record Chain (VS L : Type) : Type := mkChain {
  chain_retriever : Retriever VS;
  chain_prompt : list Piece;
  chain_llm : L
}.
Arguments mkChain {VS L} _ _ _.
Arguments chain_retriever {VS L} _.
Arguments chain_prompt {VS L} _.
Arguments chain_llm {VS L} _.

(** Result dict of [initialize]. *)
Record InitResult : Type := mkInitResult {
  status : string;
  message : string;
  chunks_count : option nat
}.

(** One entry of [sources]. *)
Record Source : Type := mkSource {
  content : string;
  source_metadata : list (string * string)
}.

(** Result dict of [ask_question]. *)
Record AskResult : Type := mkAskResult {
  question : string;
  answer : string;
  sources : list Source;
  sources_count : nat
}.

(** Result dict of [get_status]. *)
Record Status : Type := mkStatus {
  status_initialized : bool;
  speech_file_exists : bool;
  vector_db_exists : bool
}.

(** The attributes of a [RAGService] object.  [None] stands for an
    attribute holding [None] or not assigned yet. *)
Record Service (Emb VS L : Type) : Type := mkService {
  initialized : bool;
  vectorstore : option VS;
  qa_chain : option (Chain VS L);
  embeddings : option Emb;
  llm : option L;
  retriever : option (Retriever VS);
  prompt : option (list Piece)
}.
Arguments mkService {Emb VS L} _ _ _ _ _ _ _.
Arguments initialized {Emb VS L} _.
Arguments vectorstore {Emb VS L} _.
Arguments qa_chain {Emb VS L} _.
Arguments embeddings {Emb VS L} _.
Arguments llm {Emb VS L} _.
Arguments retriever {Emb VS L} _.
Arguments prompt {Emb VS L} _.

Definition set_initialized {Emb VS L} (b : bool) (s : Service Emb VS L) :=
  mkService b (vectorstore s) (qa_chain s) (embeddings s) (llm s)
            (retriever s) (prompt s).
Definition set_vectorstore {Emb VS L} (v : option VS) (s : Service Emb VS L) :=
  mkService (initialized s) v (qa_chain s) (embeddings s) (llm s)
            (retriever s) (prompt s).
Definition set_qa_chain {Emb VS L} (c : option (Chain VS L)) (s : Service Emb VS L) :=
  mkService (initialized s) (vectorstore s) c (embeddings s) (llm s)
            (retriever s) (prompt s).
Definition set_embeddings {Emb VS L} (e : option Emb) (s : Service Emb VS L) :=
  mkService (initialized s) (vectorstore s) (qa_chain s) e (llm s)
            (retriever s) (prompt s).
Definition set_llm {Emb VS L} (l : option L) (s : Service Emb VS L) :=
  mkService (initialized s) (vectorstore s) (qa_chain s) (embeddings s) l
            (retriever s) (prompt s).
Definition set_retriever {Emb VS L} (r : option (Retriever VS)) (s : Service Emb VS L) :=
  mkService (initialized s) (vectorstore s) (qa_chain s) (embeddings s) (llm s)
            r (prompt s).
Definition set_prompt {Emb VS L} (p : option (list Piece)) (s : Service Emb VS L) :=
  mkService (initialized s) (vectorstore s) (qa_chain s) (embeddings s) (llm s)
            (retriever s) p.

(** Reading an attribute and calling a method on it: [None] raises. *)
Definition attr {S W A} (o : option A) (err : string) : M S W A :=
  match o with
  | Some a => ret a
  | None => raise (AttributeError err)
  end.

Section Pipeline.
Context {W Emb VS L : Type} (env : Env W Emb VS L).

Definition SPEECH_FILE : string := path_join (ROOT_DIR env) "speech.txt".
Definition CHROMA_DB_DIR : string := path_join (ROOT_DIR env) "chroma_db".

(** [retriever.invoke(query)] *)
Definition invoke_retriever {S} (r : Retriever VS) (query : string)
  : M S W (list Document) :=
  call (EvRetrieve (retriever_k r) query)
       (retriever_invoke env (retriever_store r) (retriever_k r) query).

(** [qa_chain.invoke(question)]: the dict step runs the retriever on the
    question and formats its documents, and passes the question through;
    the prompt is formatted from that dict, given to the model, and the
    model's output goes through the output parser. *)
Definition invoke_chain {S} (c : Chain VS L) (q : string) : M S W string :=
  docs <- invoke_retriever (chain_retriever c) q ;;
  let input := [("context", format_docs docs); ("question", q)] in
  text <- lift_result (format_pieces (chain_prompt c) input) ;;
  let pv := [HumanMessage text] in
  out <- call (EvGenerate pv) (llm_invoke env (chain_llm c) pv) ;;
  ret (StrOutputParser out).

Definition embedding_model : string := "sentence-transformers/all-MiniLM-L6-v2".

(** ** [rag_service.py]: class [RAGService] *)

Local Abbreviation Svc := (Service Emb VS L).

(** [initialize], lines 47-71: document, chunks, embedding model. *)
Definition init_load : M Svc W (list Document) :=
  do logger_info "Initializing RAG service..." ;;
  present <- observe (path_exists env SPEECH_FILE) ;;
  do (if negb present
      then raise (FileNotFoundError ("Speech file not found at " ++ SPEECH_FILE))
      else ret tt) ;;
  do logger_info ("Loading speech from " ++ SPEECH_FILE) ;;
  documents <- call (EvLoad SPEECH_FILE) (TextLoader_load env SPEECH_FILE) ;;
  do logger_info "Splitting text into chunks" ;;
  texts <- call (EvSplit 200 50 ". ") (split_documents env 200 50 ". " documents) ;;
  do logger_info "Loading HuggingFace embeddings" ;;
  emb <- call (EvEmbeddings embedding_model)
              (HuggingFaceEmbeddings env embedding_model) ;;
  do set_self (set_embeddings (Some emb)) ;;
  ret texts.

(** Lines 74-75: the test that chooses between the two branches. *)
Definition index_present : M Svc W bool :=
  do logger_info "Setting up ChromaDB vector store" ;;
  observe (path_exists env CHROMA_DB_DIR).

(** Lines 76-85: open the persisted store, or build one from the chunks. *)
Definition init_store (present : bool) (texts : list Document) : M Svc W unit :=
  s <- get_self ;;
  vs <- (if present
         then call (EvChromaOpen CHROMA_DB_DIR)
                   (Chroma_open env CHROMA_DB_DIR (embeddings s))
         else call (EvChromaFromDocuments texts CHROMA_DB_DIR)
                   (Chroma_from_documents env texts (embeddings s) CHROMA_DB_DIR)) ;;
  set_self (set_vectorstore (Some vs)).

Definition ollama_config : OllamaConfig :=
  mkOllamaConfig "mistral" 7 (Some "http://localhost:11434").

(** Lines 87-127: model, retriever, prompt, chain, flag, result. *)
Definition init_chain (texts : list Document) : M Svc W InitResult :=
  do logger_info "Initializing Ollama with Mistral" ;;
  l <- call (EvOllama ollama_config) (OllamaLLM env ollama_config) ;;
  do set_self (set_llm (Some l)) ;;
  do logger_info "Creating RAG chain" ;;
  s <- get_self ;;
  vs <- attr (vectorstore s) "'NoneType' object has no attribute 'as_retriever'" ;;
  do set_self (set_retriever (Some (mkRetriever vs 3))) ;;
  do set_self (set_prompt (Some (from_template template))) ;;
  s <- get_self ;;
  r <- attr (retriever s) "'RAGService' object has no attribute 'retriever'" ;;
  p <- attr (prompt s) "'RAGService' object has no attribute 'prompt'" ;;
  l' <- attr (llm s) "'RAGService' object has no attribute 'llm'" ;;
  do set_self (set_qa_chain (Some (mkChain r p l'))) ;;
  do set_self (set_initialized true) ;;
  do logger_info "RAG service initialized successfully" ;;
  ret (mkInitResult "success" "RAG service initialized successfully"
                    (Some (length texts))).

(** The [try] block of [initialize]. *)
Definition initialize_body : M Svc W InitResult :=
  texts <- init_load ;;
  present <- index_present ;;
  do init_store present texts ;;
  init_chain texts.

(** The [except Exception as e] block of [initialize]. *)
Definition initialize_failed (e : PyExc) : M Svc W InitResult :=
  do logger_error ("Failed to initialize RAG service: " ++ exc_str e) ;;
  raise e.

Definition already_initialized : InitResult :=
  mkInitResult "already_initialized" "RAG service already initialized" None.

Definition initialize : M Svc W InitResult :=
  s <- get_self ;;
  if initialized s then ret already_initialized
  else try_except initialize_body initialize_failed.

Definition to_source (doc : Document) : Source :=
  mkSource (page_content doc) (metadata doc).

(** The [try] block of [ask_question]. *)
Definition ask_question_body (q : string) : M Svc W AskResult :=
  do logger_info ("Processing question: " ++ q) ;;
  s <- get_self ;;
  r <- attr (retriever s) "'RAGService' object has no attribute 'retriever'" ;;
  source_docs <- invoke_retriever r q ;;
  s <- get_self ;;
  c <- attr (qa_chain s) "'NoneType' object has no attribute 'invoke'" ;;
  ans <- invoke_chain c q ;;
  let srcs := map to_source source_docs in
  ret (mkAskResult q ans srcs (length srcs)).

Definition ask_question_failed (e : PyExc) : M Svc W AskResult :=
  do logger_error ("Error processing question: " ++ exc_str e) ;;
  raise e.

Definition not_initialized : PyExc :=
  RuntimeError "RAG service not initialized. Call initialize() first.".

Definition ask_question (q : string) : M Svc W AskResult :=
  s <- get_self ;;
  if negb (initialized s) then raise not_initialized
  else try_except (ask_question_body q) ask_question_failed.

Definition get_status : M Svc W Status :=
  s <- get_self ;;
  speech <- observe (path_exists env SPEECH_FILE) ;;
  db <- observe (path_exists env CHROMA_DB_DIR) ;;
  ret (mkStatus (initialized s) speech db).

End Pipeline.

(** ** [rag_service.py]: the singleton constructor

    Objects live in a heap and are named by references, so that two
    constructor calls can be compared for identity.  [RAGService_instance]
    is the class attribute [_instance]. *)
Definition ref : Type := nat.

Record ClassState (Emb VS L : Type) : Type := mkClassState {
  heap : gmap ref (Service Emb VS L);
  RAGService_instance : option ref
}.
Arguments mkClassState {Emb VS L} _ _.
Arguments heap {Emb VS L} _.
Arguments RAGService_instance {Emb VS L} _.

Section Singleton.
Context {Emb VS L : Type}.
Local Abbreviation Svc := (Service Emb VS L).
Local Abbreviation Cls := (ClassState Emb VS L).

(** A new object on which only [initialized = False] has been assigned. *)
Definition blank_service : Svc :=
  mkService false None None None None None None.

(** [__new__] *)
Definition RAGService_new (st : Cls) : ref * Cls :=
  match RAGService_instance st with
  | None =>
      let r := fresh (dom (heap st)) in
      (r, mkClassState (<[r := blank_service]> (heap st)) (Some r))
  | Some r => (r, st)
  end.

(** [__init__] on the object at [r]. *)
Definition RAGService_init (r : ref) (st : Cls) : Cls :=
  match heap st !! r with
  | None => st
  | Some s =>
      if negb (initialized s)
      then
        let s' := set_initialized false
                    (set_embeddings None
                       (set_qa_chain None (set_vectorstore None s))) in
        mkClassState (<[r := s']> (heap st)) (RAGService_instance st)
      else st
  end.

(** The call [RAGService()]: [__new__], then [__init__] on its result. *)
Definition RAGService_call (st : Cls) : ref * Cls :=
  let '(r, st1) := RAGService_new st in
  (r, RAGService_init r st1).

(** [n] calls [RAGService()] in a row: the references returned, oldest
    first, and the state afterwards. *)
Fixpoint RAGService_calls (n : nat) (st : Cls) : list ref * Cls :=
  match n with
  | O => ([], st)
  | S n' =>
      let '(r, st1) := RAGService_call st in
      let '(rs, st2) := RAGService_calls n' st1 in
      (r :: rs, st2)
  end.

(** State of the interpreter before the module is imported. *)
Definition no_objects : Cls := mkClassState ∅ None.

(** The module-level statement [rag_service = RAGService()]. *)
Definition rag_service_global : ref * Cls := RAGService_call no_objects.

(** Running a method on the object at [r]. *)
Definition on_object {W A} (r : ref) (m : M Svc W A) (st : Cls) (w : W)
  : option (Out Cls W A) :=
  match heap st !! r with
  | None => None
  | Some s =>
      match m s w with
      | mkOut x s1 w1 tr =>
          Some (mkOut x (mkClassState (<[r := s1]> (heap st))
                                      (RAGService_instance st)) w1 tr)
      end
  end.

End Singleton.

(** ** [server.py]: the AmbedkarGPT endpoints

    The handlers act on the module-level object [rag_service]; a handler
    either returns a body or raises [HTTPException]. *)
Inductive Response (A : Type) : Type :=
| Body (body : A)
| HTTPException (status_code : nat) (detail : string).
Arguments Body {A} _.
Arguments HTTPException {A} _ _.

Section Server.
Context {W Emb VS L : Type} (env : Env W Emb VS L).
Local Abbreviation Svc := (Service Emb VS L).

(** [POST /api/ambedkar/init] *)
Definition initialize_rag : M Svc W (Response InitResult) :=
  try_except
    (result <- initialize env ;;
     ret (Body result))
    (fun e =>
       do logger_error ("Error initializing RAG service: " ++ exc_str e) ;;
       ret (HTTPException 500 (exc_str e))).

(** [GET /api/ambedkar/status] *)
Definition get_rag_status : M Svc W Status := get_status env.

(** [POST /api/ambedkar/ask] *)
Definition ask_endpoint (q : string) : M Svc W (Response AskResult) :=
  try_except
    (s <- get_self ;;
     do (if negb (initialized s)
         then (_r <- initialize env ;; ret tt)
         else ret tt) ;;
     result <- ask_question env q ;;
     ret (Body result))
    (fun e =>
       if is_RuntimeError e
       then ret (HTTPException 503 "RAG service not initialized")
       else
         do logger_error ("Error processing question: " ++ exc_str e) ;;
         ret (HTTPException 500 (exc_str e))).

End Server.

(** ** Callers racing on [initialize]

    The method takes no lock.  A caller is followed through three stretches
    of [initialize], each run without interruption: the test of the flag
    (line 43), the [try] block up to the test of the index directory (lines
    47-75), and the rest (lines 76-127).  The interpreter may switch threads
    at more places than these two; every schedule below is therefore one the
    program can really take.  The race at the grain of single accesses is
    [thread_step], further down. *)
Inductive Caller : Type :=
| AtEntry
| InTry
| Checked (texts : list Document) (present : bool)
| Returned (r : PyExc + InitResult).

Record Race (W Emb VS L : Type) : Type := mkRace {
  callers : list Caller;
  shared : Service Emb VS L;
  outside : W;
  history : list Event
}.
Arguments mkRace {W Emb VS L} _ _ _ _.
Arguments callers {W Emb VS L} _.
Arguments shared {W Emb VS L} _.
Arguments outside {W Emb VS L} _.
Arguments history {W Emb VS L} _.

Section Racing.
Context {W Emb VS L : Type} (env : Env W Emb VS L).
Local Abbreviation Svc := (Service Emb VS L).

(** A stretch inside the [try] block: an exception runs the handler and
    ends the call. *)
Definition in_try {A} (m : M Svc W A) (k : A -> Caller) : M Svc W Caller :=
  fun s w =>
    match m s w with
    | mkOut (inr a) s1 w1 tr => mkOut (inr (k a)) s1 w1 tr
    | mkOut (inl e) s1 w1 tr =>
        match initialize_failed e s1 w1 with
        | mkOut r s2 w2 tr' => mkOut (inr (Returned r)) s2 w2 (tr ++ tr')
        end
    end.

Definition caller_step (c : Caller) : M Svc W Caller :=
  match c with
  | AtEntry =>
      s <- get_self ;;
      if initialized s then ret (Returned (inr already_initialized))
      else ret InTry
  | InTry =>
      in_try (texts <- init_load env ;;
              present <- index_present env ;;
              ret (texts, present))
             (fun tp => Checked (fst tp) (snd tp))
  | Checked texts present =>
      in_try (do init_store env present texts ;; init_chain env texts)
             (fun r => Returned (inr r))
  | Returned r => ret (Returned r)
  end.

(** The scheduler lets caller [i] run its next stretch. *)
Definition schedule_step (sys : Race W Emb VS L) (i : nat) : Race W Emb VS L :=
  match callers sys !! i with
  | None => sys
  | Some c =>
      match caller_step c (shared sys) (outside sys) with
      | mkOut (inl _) _ _ _ => sys
      | mkOut (inr c') s1 w1 tr =>
          mkRace (<[i := c']> (callers sys)) s1 w1 (history sys ++ tr)
      end
  end.

Definition run_schedule (sched : list nat) (sys : Race W Emb VS L)
  : Race W Emb VS L :=
  fold_left schedule_step sched sys.

(** [n] callers entering [initialize] on the same object. *)
Definition race_start (n : nat) (s : Svc) (w : W) : Race W Emb VS L :=
  mkRace (repeat AtEntry n) s w [].

(** Callers served one after the other, each to completion. *)
Definition one_by_one (n : nat) : list nat :=
  flat_map (fun i => [i; i; i]) (seq 0 n).

End Racing.

(** Number of index builds ([Chroma.from_documents]) in a list of effects. *)
Definition is_build (ev : Event) : bool :=
  match ev with
  | EvChromaFromDocuments _ _ => true
  | _ => false
  end.

Definition is_open (ev : Event) : bool :=
  match ev with
  | EvChromaOpen _ => true
  | _ => false
  end.

Definition is_retrieve (ev : Event) : bool :=
  match ev with
  | EvRetrieve _ _ => true
  | _ => false
  end.

Definition is_embeddings (ev : Event) : bool :=
  match ev with
  | EvEmbeddings _ => true
  | _ => false
  end.

Definition is_init_start (ev : Event) : bool :=
  match ev with
  | EvLog INFO msg => String.eqb msg "Initializing RAG service..."
  | _ => false
  end.

Definition count_events (p : Event -> bool) (tr : list Event) : nat :=
  length (List.filter p tr).

(** ** [ambedkar_qa_cli.py]: class [AmbedkarQA], methods [setup] and [ask] *)

(** The attributes of an [AmbedkarQA] object. *)
Record AmbedkarQA (VS L : Type) : Type := mkAmbedkarQA {
  cli_vectorstore : option VS;
  cli_qa_chain : option (Chain VS L);
  cli_llm : option L;
  cli_retriever : option (Retriever VS)
}.
Arguments mkAmbedkarQA {VS L} _ _ _ _.
Arguments cli_vectorstore {VS L} _.
Arguments cli_qa_chain {VS L} _.
Arguments cli_llm {VS L} _.
Arguments cli_retriever {VS L} _.

(** Result dict of [ask]. *)
Record CliResult : Type := mkCliResult {
  result : string;
  source_documents : list Document
}.

Section CLI.
Context {W Emb VS L : Type} (env : Env W Emb VS L).
Local Abbreviation QA := (AmbedkarQA VS L).

(** [__init__] *)
Definition AmbedkarQA_init : QA := mkAmbedkarQA None None None None.

Definition cli_ollama_config : OllamaConfig := mkOllamaConfig "mistral" 7 None.

Definition setup : M QA W unit :=
  do print "🔧 Setting up AmbedkarGPT..." ;;
  do print ("📄 Loading speech from " ++ SPEECH_FILE env ++ "...") ;;
  present <- observe (path_exists env (SPEECH_FILE env)) ;;
  do (if negb present
      then raise (FileNotFoundError
                    ("Speech file not found at " ++ SPEECH_FILE env))
      else ret tt) ;;
  documents <- call (EvLoad (SPEECH_FILE env))
                    (TextLoader_load env (SPEECH_FILE env)) ;;
  do print ("✓ Loaded " ++ pretty (length documents) ++ " document(s)") ;;
  do print "✂️  Splitting text into chunks..." ;;
  texts <- call (EvSplit 200 50 ". ")
                (split_documents env 200 50 ". " documents) ;;
  do print ("✓ Created " ++ pretty (length texts) ++ " text chunks") ;;
  do print "🧠 Loading HuggingFace embeddings model..." ;;
  emb <- call (EvEmbeddings embedding_model)
              (HuggingFaceEmbeddings env embedding_model) ;;
  do print "✓ Embeddings model loaded" ;;
  do print "💾 Creating ChromaDB vector store..." ;;
  vs <- call (EvChromaFromDocuments texts (CHROMA_DB_DIR env))
             (Chroma_from_documents env texts (Some emb) (CHROMA_DB_DIR env)) ;;
  do set_self (fun s => mkAmbedkarQA (Some vs) (cli_qa_chain s) (cli_llm s)
                                     (cli_retriever s)) ;;
  do print "✓ Vector store created" ;;
  do print "🤖 Initializing Ollama with Mistral 7B..." ;;
  l <- call (EvOllama cli_ollama_config) (OllamaLLM env cli_ollama_config) ;;
  do set_self (fun s => mkAmbedkarQA (cli_vectorstore s) (cli_qa_chain s)
                                     (Some l) (cli_retriever s)) ;;
  do print "✓ LLM initialized" ;;
  do print "⛓️  Creating RAG chain..." ;;
  do set_self (fun s => mkAmbedkarQA (cli_vectorstore s) (cli_qa_chain s)
                                     (cli_llm s) (Some (mkRetriever vs 3))) ;;
  let prompt := from_template template in
  s <- get_self ;;
  r <- attr (cli_retriever s) "'AmbedkarQA' object has no attribute 'retriever'" ;;
  l' <- attr (cli_llm s) "'AmbedkarQA' object has no attribute 'llm'" ;;
  do set_self (fun s => mkAmbedkarQA (cli_vectorstore s)
                                     (Some (mkChain r prompt l'))
                                     (cli_llm s) (cli_retriever s)) ;;
  do print "✓ QA chain ready" ;;
  print (LF ++ "✅ AmbedkarGPT is ready!" ++ LF).

Definition ask (q : string) : M QA W CliResult :=
  s <- get_self ;;
  match cli_qa_chain s with
  | None => raise (RuntimeError "QA system not initialized. Call setup() first.")
  | Some c =>
      r <- attr (cli_retriever s)
                "'AmbedkarQA' object has no attribute 'retriever'" ;;
      source_docs <- invoke_retriever env r q ;;
      ans <- invoke_chain env c q ;;
      ret (mkCliResult ans source_docs)
  end.

End CLI.

(** ** A scripted stand-in for the libraries

    Used to run the program on concrete inputs.  The world holds the text of
    the speech file if it exists, the persisted collection if the index
    directory exists, and two scripts: the results the next retrievals give
    (when the script is exhausted a retrieval gives the first [k] documents
    of the collection) and the outcomes of the next calls of the model (then
    a fixed answer).  The splitter stand-in keeps a non-empty document as
    one chunk and gives no chunk for an empty one, which is what the real
    splitter does on a text shorter than the chunk size. *)
Module Sim.

Record World : Type := mkWorld {
  speech : option string;
  collection : option (list Document);
  retrievals : list (PyExc + list Document);
  generations : list (PyExc + string)
}.

Definition root : string := "/app".

Definition exists_ (p : string) (w : World) : bool :=
  if String.eqb p (path_join root "speech.txt") then
    match speech w with Some _ => true | None => false end
  else if String.eqb p (path_join root "chroma_db") then
    match collection w with Some _ => true | None => false end
  else false.

Definition load (p : string) (w : World) : (PyExc + list Document) * World :=
  match speech w with
  | Some text => (inr [mkDocument text [("source", p)]], w)
  | None => (inl (RuntimeError ("Error loading " ++ p)), w)
  end.

Definition split (size overlap : nat) (sep : string) (docs : list Document)
  (w : World) : (PyExc + list Document) * World :=
  (inr (List.filter
          (fun d => negb (String.eqb (page_content d) "")) docs), w).

Definition embed_model (name : string) (w : World) : (PyExc + string) * World :=
  (inr name, w).

Definition open_store (dir : string) (emb : option string) (w : World)
  : (PyExc + string) * World :=
  (inr dir, w).

Definition build_store (docs : list Document) (emb : option string)
  (dir : string) (w : World) : (PyExc + string) * World :=
  (inr dir,
   mkWorld (speech w)
           (Some (match collection w with
                  | Some old => (old ++ docs)%list
                  | None => docs
                  end))
           (retrievals w) (generations w)).

Definition ollama (cfg : OllamaConfig) (w : World)
  : (PyExc + OllamaConfig) * World :=
  (inr cfg, w).

Definition retrieve (store : string) (k : nat) (q : string) (w : World)
  : (PyExc + list Document) * World :=
  match retrievals w with
  | r :: rest => (r, mkWorld (speech w) (collection w) rest (generations w))
  | [] =>
      (inr (firstn k (match collection w with
                      | Some docs => docs
                      | None => []
                      end)), w)
  end.

Definition generate (l : OllamaConfig) (pv : PromptValue) (w : World)
  : (PyExc + string) * World :=
  match generations w with
  | r :: rest => (r, mkWorld (speech w) (collection w) (retrievals w) rest)
  | [] => (inr "Liberty, equality and fraternity.", w)
  end.

Definition env : Env World string string OllamaConfig :=
  mkEnv World string string OllamaConfig
        root exists_ load split embed_model open_store build_store ollama
        retrieve generate.

Definition fresh_service : Service string string OllamaConfig := blank_service.

Definition short_speech : string :=
  "Caste is not just a division of labour. It is a division of labourers.".

(** Speech file present, no index directory yet. *)
Definition first_run : World := mkWorld (Some short_speech) None [] [].

(** Neither the speech file nor the index directory exists. *)
Definition nothing : World := mkWorld None None [] [].

Definition old_chunk : Document :=
  mkDocument "An earlier text." [("source", "/app/speech.txt")].

(** The speech file is empty and an index directory is left from before. *)
Definition empty_speech_old_index : World :=
  mkWorld (Some "") (Some [old_chunk]) [] [].

(** The service after a first successful [initialize]. *)
Definition ready : Out (Service string string OllamaConfig) World InitResult :=
  initialize env fresh_service first_run.
Definition ready_service : Service string string OllamaConfig := self_of ready.
Definition ready_world : World := world_of ready.

Definition speech_chunk : Document :=
  mkDocument short_speech [("source", "/app/speech.txt")].

(** The model server cannot be reached for the next call. *)
Definition model_down : World :=
  mkWorld (Some short_speech) (Some [speech_chunk]) []
          [inl (LibraryError "ConnectError" "Connection refused")].

(** The object made by the first constructor call, and the state then. *)
Definition the_object : ref * ClassState string string OllamaConfig :=
  RAGService_call no_objects.

Definition chunk_a : Document := mkDocument "A" [].
Definition chunk_b : Document := mkDocument "B" [].

(** Another process writes to the collection between two retrievals: the
    first retrieval gives [chunk_a], the next one [chunk_b]. *)
Definition drifting : World :=
  mkWorld (Some short_speech) (Some [chunk_a; chunk_b])
          [inr [chunk_a]; inr [chunk_b]] [].

(** A collection of two chunks. *)
Definition two_chunks : World :=
  mkWorld (Some short_speech) (Some [chunk_a; chunk_b]) [] [].

End Sim.

(** ** More of [ambedkar_qa_cli.py]: [interactive_mode] and [main] *)

(** What [input(prompt)] gives: a line, [KeyboardInterrupt], or an exception
    such as [EOFError]. *)
Inductive Typed : Type :=
| Line (text : string)
| KeyboardInterrupt
| InputError (e : PyExc).

(** The terminal, and the methods of Python strings and of [traceback] the
    loop uses.  What is printed by [traceback.print_exc] is recorded like
    the other console output. *)
Record Console (W : Type) : Type := mkConsole {
  (** [input(prompt)] *)
  console_input : string -> W -> Typed * W;
  (** [s.strip()] *)
  str_strip : string -> string;
  (** [s.lower()] *)
  str_lower : string -> string;
  (** the text written by [traceback.print_exc()] while handling [e] *)
  traceback_text : PyExc -> string
}.
Arguments console_input {W} _ _ _.
Arguments str_strip {W} _ _.
Arguments str_lower {W} _ _.
Arguments traceback_text {W} _ _.

(** [s * n] *)
Fixpoint str_repeat (s : string) (n : nat) : string :=
  match n with
  | O => ""
  | S n' => s ++ str_repeat s n'
  end.

(** [s in ['exit', 'quit', 'q']] *)
Definition is_exit_word (s : string) : bool :=
  existsb (String.eqb s) ["exit"; "quit"; "q"].

(** How a run of [main] stands: it returned, it called [sys.exit], or the
    loop is still asking when the fuel of the model is used up. *)
Inductive Exit : Type :=
| Returns
| SysExit (code : nat)
| Running.

Section Interactive.
Context {W Emb VS L : Type} (env : Env W Emb VS L) (con : Console W).
Local Abbreviation QA := (AmbedkarQA VS L).

Definition read_input (prompt_text : string) : M QA W Typed :=
  fun s w =>
    match console_input con prompt_text w with
    | (t, w') => mkOut (inr t) s w' [EvPrint prompt_text]
    end.

(** The [except Exception as e] block of the loop. *)
Definition show_error (e : PyExc) : M QA W unit :=
  do print (LF ++ "❌ Error: " ++ exc_str e) ;;
  print (traceback_text con e).

(** The part of the [try] block that follows the two tests on the line. *)
Definition answer_and_show (q : string) : M QA W unit :=
  do print (LF ++ "🔍 Searching and generating answer..." ++ LF) ;;
  r <- ask env q ;;
  do print "💡 Answer:" ;;
  do print (str_repeat "-" 60) ;;
  do print (result r) ;;
  do print (str_repeat "-" 60) ;;
  match source_documents r with
  | [] => ret tt
  | _ :: _ =>
      print (LF ++ "📚 Retrieved " ++ pretty (length (source_documents r))
                ++ " relevant text chunks")
  end.

(** The [while True] loop, at most [fuel] times round; the result tells
    whether the loop has ended. *)
Fixpoint question_loop (fuel : nat) : M QA W bool :=
  match fuel with
  | O => ret false
  | S fuel' =>
      t <- read_input (LF ++ "❓ Your question: ") ;;
      match t with
      | KeyboardInterrupt =>
          do print (LF ++ LF ++ "👋 Interrupted. Exiting...") ;;
          ret true
      | InputError e =>
          do show_error e ;;
          question_loop fuel'
      | Line raw =>
          let q := str_strip con raw in
          if is_exit_word (str_lower con q) then
            do print (LF ++ "👋 Thank you for using AmbedkarGPT!") ;;
            ret true
          else if String.eqb q "" then
            do print "⚠️  Please enter a question." ;;
            question_loop fuel'
          else
            do try_except (answer_and_show q) show_error ;;
            question_loop fuel'
      end
  end.

Definition interactive_mode (fuel : nat) : M QA W bool :=
  do print (str_repeat "=" 60) ;;
  do print "🙏 Welcome to AmbedkarGPT!" ;;
  do print "Ask questions about Dr. B.R. Ambedkar's speech on caste." ;;
  do print "Type 'exit' or 'quit' to end the session." ;;
  do print (str_repeat "=" 60) ;;
  do print "" ;;
  question_loop fuel.

(** [main], run on a new [AmbedkarQA] object.  The clause is
    [except Exception]: it catches the instances of [Exception], which is
    what [PyExc] holds.  A [KeyboardInterrupt] is no [Exception]; the one
    place where the model has it is the prompt of [interactive_mode], which
    catches it itself. *)
Definition main (fuel : nat) (w : W) : Out QA W Exit :=
  try_except
    (do setup env ;;
     ended <- interactive_mode fuel ;;
     ret (if ended then Returns else Running))
    (fun e =>
       do print (LF ++ "❌ Fatal error: " ++ exc_str e) ;;
       do print (traceback_text con e) ;;
       ret (SysExit 1))
    AmbedkarQA_init w.

End Interactive.

(** ** More of [server.py]: the CORS origins *)

(** [s.split(sep)] for a separator of one character; [acc] is the piece
    being read. *)
Fixpoint split_from (sep : ascii) (s acc : string) : list string :=
  match s with
  | EmptyString => [acc]
  | String c s' =>
      if Ascii.eqb c sep then acc :: split_from sep s' ""
      else split_from sep s' (acc ++ String c "")
  end.

Definition str_split (sep : ascii) (s : string) : list string :=
  split_from sep s "".

(** [os.environ.get('CORS_ORIGINS', '*').split(',')], the variable being
    given as [None] when it is not set. *)
Definition allow_origins (cors_origins : option string) : list string :=
  str_split ","
    (match cors_origins with
     | Some v => v
     | None => "*"
     end).

(** ** Counting effects *)

(** The library calls that set the pipeline up. *)
Definition is_setup_call (ev : Event) : bool :=
  match ev with
  | EvLoad _ | EvSplit _ _ _ | EvEmbeddings _ | EvChromaOpen _
  | EvChromaFromDocuments _ _ | EvOllama _ => true
  | _ => false
  end.

Definition is_generate (ev : Event) : bool :=
  match ev with
  | EvGenerate _ => true
  | _ => false
  end.

Definition is_library_call (ev : Event) : bool :=
  match ev with
  | EvLog _ _ | EvPrint _ => false
  | _ => true
  end.

(** ** Callers racing on [initialize], access by access

    The same race at the finest grain the object and the libraries allow:
    a caller is followed through every single thing [initialize] does that
    another caller can see or that can see another caller, one at a time:
    each read of an attribute of [self], each assignment to one, each log
    record, each file test and each library call.  Between any two of these
    the scheduler may hand over to another caller.  What a caller has
    computed but not yet stored is kept with its position, as its local
    variables are.  A library call is one step; what a library does inside a
    call is the library's own affair, and every capability of [Env] stands
    for any behaviour of it. *)
Inductive Pc (Emb VS L : Type) : Type :=
| AtFlagTest                                        (* line 43 *)
| AtLogStart                                        (* line 47 *)
| AtSpeechTest                                      (* line 50 *)
| AtLogLoading                                      (* line 54 *)
| AtLoad                                            (* lines 55-56 *)
| AtLogSplitting (documents : list Document)        (* line 59 *)
| AtSplit (documents : list Document)               (* lines 60-65 *)
| AtLogEmbeddings (texts : list Document)           (* line 68 *)
| AtEmbeddings (texts : list Document)              (* line 69, the call *)
| AtSetEmbeddings (texts : list Document) (emb : Emb)  (* line 69, the store *)
| AtLogStore (texts : list Document)                (* line 74 *)
| AtIndexTest (texts : list Document)               (* line 75 *)
| AtReadEmbeddings (texts : list Document) (present : bool)
                                                    (* lines 78, 83 *)
| AtStoreCall (texts : list Document) (present : bool) (emb : option Emb)
                                                    (* lines 76, 81, the call *)
| AtSetVectorstore (texts : list Document) (vs : VS)
                                                    (* lines 76, 81, the store *)
| AtLogOllama (texts : list Document)               (* line 88 *)
| AtOllama (texts : list Document)                  (* line 89, the call *)
| AtSetLlm (texts : list Document) (l : L)          (* line 89, the store *)
| AtLogChain (texts : list Document)                (* line 96 *)
| AtReadVectorstore (texts : list Document)         (* line 97, the read *)
| AtSetRetriever (texts : list Document) (r : Retriever VS)
                                                    (* line 97, the store *)
| AtSetPrompt (texts : list Document)               (* line 107 *)
| AtReadRetriever (texts : list Document)           (* line 114 *)
| AtReadPrompt (texts : list Document) (r : Retriever VS)
                                                    (* line 115 *)
| AtReadLlm (texts : list Document) (r : Retriever VS) (p : list Piece)
                                                    (* line 116 *)
| AtSetChain (texts : list Document) (c : Chain VS L)
                                                    (* line 113, the store *)
| AtSetFlag (texts : list Document)                 (* line 120 *)
| AtLogDone (texts : list Document)                 (* line 121 *)
| AtHandler (e : PyExc)                             (* lines 129-131 *)
| Done (r : PyExc + InitResult).
Arguments AtFlagTest {Emb VS L}.
Arguments AtLogStart {Emb VS L}.
Arguments AtSpeechTest {Emb VS L}.
Arguments AtLogLoading {Emb VS L}.
Arguments AtLoad {Emb VS L}.
Arguments AtLogSplitting {Emb VS L} _.
Arguments AtSplit {Emb VS L} _.
Arguments AtLogEmbeddings {Emb VS L} _.
Arguments AtEmbeddings {Emb VS L} _.
Arguments AtSetEmbeddings {Emb VS L} _ _.
Arguments AtLogStore {Emb VS L} _.
Arguments AtIndexTest {Emb VS L} _.
Arguments AtReadEmbeddings {Emb VS L} _ _.
Arguments AtStoreCall {Emb VS L} _ _ _.
Arguments AtSetVectorstore {Emb VS L} _ _.
Arguments AtLogOllama {Emb VS L} _.
Arguments AtOllama {Emb VS L} _.
Arguments AtSetLlm {Emb VS L} _ _.
Arguments AtLogChain {Emb VS L} _.
Arguments AtReadVectorstore {Emb VS L} _.
Arguments AtSetRetriever {Emb VS L} _ _.
Arguments AtSetPrompt {Emb VS L} _.
Arguments AtReadRetriever {Emb VS L} _.
Arguments AtReadPrompt {Emb VS L} _ _.
Arguments AtReadLlm {Emb VS L} _ _ _.
Arguments AtSetChain {Emb VS L} _ _.
Arguments AtSetFlag {Emb VS L} _.
Arguments AtLogDone {Emb VS L} _.
Arguments AtHandler {Emb VS L} _.
Arguments Done {Emb VS L} _.

Record Threads (W Emb VS L : Type) : Type := mkThreads {
  positions : list (Pc Emb VS L);
  object : Service Emb VS L;
  surroundings : W;
  effects : list Event
}.
Arguments mkThreads {W Emb VS L} _ _ _ _.
Arguments positions {W Emb VS L} _.
Arguments object {W Emb VS L} _.
Arguments surroundings {W Emb VS L} _.
Arguments effects {W Emb VS L} _.

Section Interleaving.
Context {W Emb VS L : Type} (env : Env W Emb VS L).
Local Abbreviation Svc := (Service Emb VS L).
Local Abbreviation Pos := (Pc Emb VS L).

(** One step inside the [try] block: an exception sends the caller to the
    handler. *)
Definition guarded {A} (m : M Svc W A) (k : A -> Pos) : M Svc W Pos :=
  fun s w =>
    match m s w with
    | mkOut (inr a) s1 w1 tr => mkOut (inr (k a)) s1 w1 tr
    | mkOut (inl e) s1 w1 tr => mkOut (inr (AtHandler e)) s1 w1 tr
    end.

(** What the caller at position [pc] does next, and where it stands then. *)
Definition thread_step (pc : Pos) : M Svc W Pos :=
  match pc with
  | AtFlagTest =>
      s <- get_self ;;
      ret (if initialized s then Done (inr already_initialized) else AtLogStart)
  | AtLogStart =>
      guarded (logger_info "Initializing RAG service...")
              (fun _ => AtSpeechTest)
  | AtSpeechTest =>
      guarded (observe (path_exists env (SPEECH_FILE env)))
              (fun present =>
                 if present then AtLogLoading
                 else AtHandler (FileNotFoundError
                        ("Speech file not found at " ++ SPEECH_FILE env)))
  | AtLogLoading =>
      guarded (logger_info ("Loading speech from " ++ SPEECH_FILE env))
              (fun _ => AtLoad)
  | AtLoad =>
      guarded (call (EvLoad (SPEECH_FILE env))
                    (TextLoader_load env (SPEECH_FILE env)))
              AtLogSplitting
  | AtLogSplitting documents =>
      guarded (logger_info "Splitting text into chunks")
              (fun _ => AtSplit documents)
  | AtSplit documents =>
      guarded (call (EvSplit 200 50 ". ")
                    (split_documents env 200 50 ". " documents))
              AtLogEmbeddings
  | AtLogEmbeddings texts =>
      guarded (logger_info "Loading HuggingFace embeddings")
              (fun _ => AtEmbeddings texts)
  | AtEmbeddings texts =>
      guarded (call (EvEmbeddings embedding_model)
                    (HuggingFaceEmbeddings env embedding_model))
              (AtSetEmbeddings texts)
  | AtSetEmbeddings texts emb =>
      guarded (set_self (set_embeddings (Some emb)))
              (fun _ => AtLogStore texts)
  | AtLogStore texts =>
      guarded (logger_info "Setting up ChromaDB vector store")
              (fun _ => AtIndexTest texts)
  | AtIndexTest texts =>
      guarded (observe (path_exists env (CHROMA_DB_DIR env)))
              (AtReadEmbeddings texts)
  | AtReadEmbeddings texts present =>
      guarded get_self (fun s => AtStoreCall texts present (embeddings s))
  | AtStoreCall texts present emb =>
      guarded (if present
               then call (EvChromaOpen (CHROMA_DB_DIR env))
                         (Chroma_open env (CHROMA_DB_DIR env) emb)
               else call (EvChromaFromDocuments texts (CHROMA_DB_DIR env))
                         (Chroma_from_documents env texts emb
                            (CHROMA_DB_DIR env)))
              (AtSetVectorstore texts)
  | AtSetVectorstore texts vs =>
      guarded (set_self (set_vectorstore (Some vs)))
              (fun _ => AtLogOllama texts)
  | AtLogOllama texts =>
      guarded (logger_info "Initializing Ollama with Mistral")
              (fun _ => AtOllama texts)
  | AtOllama texts =>
      guarded (call (EvOllama ollama_config) (OllamaLLM env ollama_config))
              (AtSetLlm texts)
  | AtSetLlm texts l =>
      guarded (set_self (set_llm (Some l))) (fun _ => AtLogChain texts)
  | AtLogChain texts =>
      guarded (logger_info "Creating RAG chain")
              (fun _ => AtReadVectorstore texts)
  | AtReadVectorstore texts =>
      guarded (s <- get_self ;;
               vs <- attr (vectorstore s)
                       "'NoneType' object has no attribute 'as_retriever'" ;;
               ret (mkRetriever vs 3))
              (AtSetRetriever texts)
  | AtSetRetriever texts r =>
      guarded (set_self (set_retriever (Some r))) (fun _ => AtSetPrompt texts)
  | AtSetPrompt texts =>
      guarded (set_self (set_prompt (Some (from_template template))))
              (fun _ => AtReadRetriever texts)
  | AtReadRetriever texts =>
      guarded (s <- get_self ;;
               attr (retriever s)
                 "'RAGService' object has no attribute 'retriever'")
              (AtReadPrompt texts)
  | AtReadPrompt texts r =>
      guarded (s <- get_self ;;
               attr (prompt s) "'RAGService' object has no attribute 'prompt'")
              (AtReadLlm texts r)
  | AtReadLlm texts r p =>
      guarded (s <- get_self ;;
               l <- attr (llm s) "'RAGService' object has no attribute 'llm'" ;;
               ret (mkChain r p l))
              (AtSetChain texts)
  | AtSetChain texts c =>
      guarded (set_self (set_qa_chain (Some c))) (fun _ => AtSetFlag texts)
  | AtSetFlag texts =>
      guarded (set_self (set_initialized true)) (fun _ => AtLogDone texts)
  | AtLogDone texts =>
      guarded (logger_info "RAG service initialized successfully")
              (fun _ => Done (inr (mkInitResult "success"
                                     "RAG service initialized successfully"
                                     (Some (length texts)))))
  | AtHandler e =>
      do logger_error ("Failed to initialize RAG service: " ++ exc_str e) ;;
      ret (Done (inl e))
  | Done r => ret (Done r)
  end.

(** A caller left alone for [n] steps. *)
Fixpoint run_alone (n : nat) (pc : Pos) : M Svc W Pos :=
  match n with
  | O => ret pc
  | S n' => pc' <- thread_step pc ;; run_alone n' pc'
  end.

(** The scheduler lets caller [i] take its next step. *)
Definition thread_switch (sys : Threads W Emb VS L) (i : nat)
  : Threads W Emb VS L :=
  match positions sys !! i with
  | None => sys
  | Some pc =>
      match thread_step pc (object sys) (surroundings sys) with
      | mkOut (inl _) _ _ _ => sys
      | mkOut (inr pc') s1 w1 tr =>
          mkThreads (<[i := pc']> (positions sys)) s1 w1 (effects sys ++ tr)
      end
  end.

Definition interleave (sched : list nat) (sys : Threads W Emb VS L)
  : Threads W Emb VS L :=
  fold_left thread_switch sched sys.

(** [n] callers entering [initialize] on the same object. *)
Definition threads_start (n : nat) (s : Svc) (w : W) : Threads W Emb VS L :=
  mkThreads (repeat AtFlagTest n) s w [].

(** The positions from which the call that builds the index is still
    ahead. *)
Definition before_store (pc : Pos) : bool :=
  match pc with
  | AtFlagTest | AtLogStart | AtSpeechTest | AtLogLoading | AtLoad
  | AtLogSplitting _ | AtSplit _ | AtLogEmbeddings _ | AtEmbeddings _
  | AtSetEmbeddings _ _ | AtLogStore _ | AtIndexTest _
  | AtReadEmbeddings _ _ | AtStoreCall _ _ _ => true
  | _ => false
  end.

Definition may_still_build (pcs : list Pos) : nat :=
  length (List.filter before_store pcs).

End Interleaving.

(** ** More stand-ins *)
Module Sim2.

(** As [Sim.env], but creating the model raises. *)
Definition ollama_refused (cfg : OllamaConfig) (w : Sim.World)
  : (PyExc + OllamaConfig) * Sim.World :=
  (inl (LibraryError "ValidationError" "model settings refused"), w).

Definition env_no_model : Env Sim.World string string OllamaConfig :=
  mkEnv Sim.World string string OllamaConfig
        Sim.root Sim.exists_ Sim.load Sim.split Sim.embed_model Sim.open_store
        Sim.build_store ollama_refused Sim.retrieve Sim.generate.

(** The model raises [NotImplementedError], a subclass of [RuntimeError],
    on the next call. *)
Definition model_unimplemented : Sim.World :=
  Sim.mkWorld (Some Sim.short_speech) (Some [Sim.speech_chunk]) []
    [inl (RuntimeErrorSubclass "NotImplementedError"
            "streaming is not supported")].

(** The object made by the first constructor call, after an [initialize]
    that failed at the creation of the model: the embedding model and the
    vector store are set, the flag is not. *)
Definition half_built : Service string string OllamaConfig :=
  self_of (initialize env_no_model Sim.fresh_service Sim.first_run).

Definition after_failed_initialize : ClassState string string OllamaConfig :=
  mkClassState (<[fst Sim.the_object := half_built]> (heap (snd Sim.the_object)))
               (RAGService_instance (snd Sim.the_object)).

(** Two callers on a new object: the second has passed the test of the
    flag and of the speech file when the first runs through to the end. *)
Definition second_caller_inside
  : Threads Sim.World string string OllamaConfig :=
  interleave Sim.env ([1; 1; 1] ++ repeat 0 28)%list
             (threads_start 2 Sim.fresh_service Sim.first_run).

(** A world with a terminal: the lines still to be typed. *)
Definition World : Type := (Sim.World * list Typed)%type.

Definition on_files {A} (f : Sim.World -> A * Sim.World) (w : World)
  : A * World :=
  match f (fst w) with
  | (a, fs) => (a, (fs, snd w))
  end.

Definition env : Env World string string OllamaConfig :=
  mkEnv World string string OllamaConfig
        Sim.root
        (fun p w => Sim.exists_ p (fst w))
        (fun p => on_files (Sim.load p))
        (fun a b c d => on_files (Sim.split a b c d))
        (fun n => on_files (Sim.embed_model n))
        (fun d e => on_files (Sim.open_store d e))
        (fun t e d => on_files (Sim.build_store t e d))
        (fun c => on_files (Sim.ollama c))
        (fun v k q => on_files (Sim.retrieve v k q))
        (fun l p => on_files (Sim.generate l p)).

Definition end_of_file : PyExc :=
  LibraryError "EOFError" "EOF when reading a line".

(** The next typed line; at the end of the input, [EOFError]. *)
Definition type_next (prompt_text : string) (w : World) : Typed * World :=
  match snd w with
  | t :: rest => (t, (fst w, rest))
  | [] => (InputError end_of_file, w)
  end.

Definition is_space (c : ascii) : bool :=
  let n := nat_of_ascii c in
  ((n =? 32) || ((9 <=? n) && (n <=? 13)))%nat.

Fixpoint lstrip (s : string) : string :=
  match s with
  | EmptyString => ""
  | String c s' => if is_space c then lstrip s' else s
  end.

(** Drops the spaces at the end: [None] when only spaces are left. *)
Fixpoint rstrip_opt (s : string) : option string :=
  match s with
  | EmptyString => None
  | String c s' =>
      match rstrip_opt s' with
      | Some t => Some (String c t)
      | None => if is_space c then None else Some (String c "")
      end
  end.

(** [strip] on texts of plain ASCII characters. *)
Definition ascii_strip (s : string) : string :=
  match rstrip_opt (lstrip s) with
  | Some t => t
  | None => ""
  end.

Definition lower_char (c : ascii) : ascii :=
  let n := nat_of_ascii c in
  if ((65 <=? n) && (n <=? 90))%nat then ascii_of_nat (n + 32) else c.

(** [lower] on texts of plain ASCII characters. *)
Fixpoint ascii_lower (s : string) : string :=
  match s with
  | EmptyString => ""
  | String c s' => String (lower_char c) (ascii_lower s')
  end.

Definition console : Console World :=
  mkConsole World type_next ascii_strip ascii_lower
            (fun e => "Traceback (most recent call last): " ++ exc_str e).

(** A session: a blank line, a question, then [quit]. *)
Definition session : World :=
  (Sim.first_run, [Line "   "; Line " What is caste? "; Line "QUIT"; Line "never read"]).

(** The input is closed from the start. *)
Definition closed_input : World := (Sim.first_run, []).

(** No speech file, and somebody waiting at the terminal. *)
Definition no_speech : World := (Sim.nothing, [Line "What is caste?"]).

End Sim2.

(** ** More of [server.py]: the status check records

    The two [/status] handlers are written by explicit state passing: they
    log nothing.  The collection, the clock, the identifier generator and
    the two conversions of [datetime] are capabilities.  What is modelled
    is the value a handler returns or the exception it raises, before the
    framework checks it against the response model. *)

(** A value of a stored document: a string, a [datetime], or anything
    else. *)
Inductive Value (DT : Type) : Type :=
| VStr (s : string)
| VTime (t : DT)
| VOther.
Arguments VStr {DT} _.
Arguments VTime {DT} _.
Arguments VOther {DT}.

(** The model [StatusCheck]. *)
Record StatusCheck (DT : Type) : Type := mkStatusCheck {
  check_id : string;
  client_name : string;
  timestamp : DT
}.
Arguments mkStatusCheck {DT} _ _ _.
Arguments check_id {DT} _.
Arguments client_name {DT} _.
Arguments timestamp {DT} _.

Record Mongo (W DT : Type) : Type := mkMongo {
  (** [str(uuid.uuid4())] *)
  uuid4_str : W -> string * W;
  (** [datetime.now(timezone.utc)] *)
  utc_now : W -> DT * W;
  (** [t.isoformat()] *)
  isoformat : DT -> string;
  (** [datetime.fromisoformat(s)] *)
  fromisoformat : string -> PyExc + DT;
  (** [db.status_checks.insert_one(doc)] *)
  insert_one : list (string * Value DT) -> W -> (PyExc + unit) * W;
  (** [db.status_checks.find({}, {"_id": 0}).to_list(n)] *)
  find_to_list : nat -> W -> (PyExc + list (list (string * Value DT))) * W
}.
Arguments uuid4_str {W DT} _ _.
Arguments utc_now {W DT} _ _.
Arguments isoformat {W DT} _ _.
Arguments fromisoformat {W DT} _ _.
Arguments insert_one {W DT} _ _ _.
Arguments find_to_list {W DT} _ _ _.

Section StatusChecks.
Context {W DT : Type} (db : Mongo W DT).
Local Abbreviation Doc := (list (string * Value DT)).

(** [d[k]], [None] standing for [KeyError]. *)
Fixpoint doc_get (k : string) (d : Doc) : option (Value DT) :=
  match d with
  | [] => None
  | (k', v) :: rest => if String.eqb k k' then Some v else doc_get k rest
  end.

(** [d[k] = v]: the value of an existing key is replaced where it is, a new
    key is added at the end. *)
Fixpoint doc_set (k : string) (v : Value DT) (d : Doc) : Doc :=
  match d with
  | [] => [(k, v)]
  | (k', v') :: rest =>
      if String.eqb k k' then (k', v) :: rest
      else (k', v') :: doc_set k v rest
  end.

(** [status_obj.model_dump()] *)
Definition model_dump (c : StatusCheck DT) : Doc :=
  [("id", VStr (check_id c));
   ("client_name", VStr (client_name c));
   ("timestamp", VTime (timestamp c))].

(** The document handed to [insert_one]: the dump with the timestamp
    replaced by its ISO text. *)
Definition stored_doc (c : StatusCheck DT) : Doc :=
  doc_set "timestamp" (VStr (isoformat db (timestamp c))) (model_dump c).

(** [POST /api/status] *)
Definition create_status_check (name : string) (w : W)
  : (PyExc + StatusCheck DT) * W :=
  let '(new_id, w1) := uuid4_str db w in
  let '(now, w2) := utc_now db w1 in
  let status_obj := mkStatusCheck new_id name now in
  match insert_one db (stored_doc status_obj) w2 with
  | (inl e, w3) => (inl e, w3)
  | (inr _, w3) => (inr status_obj, w3)
  end.

(** The [for check in status_checks] loop. *)
Fixpoint parse_timestamps (checks : list Doc) : PyExc + list Doc :=
  match checks with
  | [] => inr []
  | check :: rest =>
      match doc_get "timestamp" check with
      | None => inl (LibraryError "KeyError" "'timestamp'")
      | Some (VStr s) =>
          match fromisoformat db s with
          | inl e => inl e
          | inr t =>
              match parse_timestamps rest with
              | inl e => inl e
              | inr rest' => inr (doc_set "timestamp" (VTime t) check :: rest')
              end
          end
      | Some _ =>
          match parse_timestamps rest with
          | inl e => inl e
          | inr rest' => inr (check :: rest')
          end
      end
  end.

(** [GET /api/status] *)
Definition get_status_checks (w : W) : (PyExc + list Doc) * W :=
  match find_to_list db 1000 w with
  | (inl e, w1) => (inl e, w1)
  | (inr status_checks, w1) => (parse_timestamps status_checks, w1)
  end.

End StatusChecks.

(** A stand-in collection: the documents in the order they were inserted,
    and a counter for identifiers and clock.  A [datetime] is kept as its
    ISO text. *)
Module Sim3.

Definition World : Type := (nat * list (list (string * Value string)))%type.

Definition db : Mongo World string :=
  mkMongo World string
    (fun w => ("id-" ++ pretty (fst w), (S (fst w), snd w)))
    (fun w => ("2024-01-01T00:00:0" ++ pretty (fst w), w))
    (fun t => t)
    (fun s => inr s)
    (fun d w => (inr tt, (fst w, (snd w ++ [d])%list)))
    (fun n w => (inr (firstn n (snd w)), w)).

Definition empty : World := (0, []).

(** A collection holding one record without a timestamp. *)
Definition broken : World := (0, [[("id", VStr "x"); ("client_name", VStr "y")]]).

End Sim3.

(** * Properties *)

(** ** Running the monad symbolically *)

Lemma from_template_template :
  from_template template =
  [Lit ("Answer the question based on the following context from Dr. B.R. Ambedkar's speech:"
        ++ LF ++ LF ++ "Context: ");
   Field "context";
   Lit (LF ++ LF ++ "Question: ");
   Field "question";
   Lit (LF ++ LF ++ "Answer: ")].
Proof. vm_compute. reflexivity. Qed.

Ltac unfold_monad :=
  unfold logger_info, logger_error, print, attr in *;
  unfold bind, try_except, ret, raise, emit, get_self, set_self, observe,
    call, lift_result in *.

Ltac unfold_service :=
  unfold initialize, initialize_body, init_load, index_present, init_store,
    init_chain, initialize_failed, ask_question, ask_question_body,
    ask_question_failed, invoke_chain, invoke_retriever, get_status in *.

Ltac run_step := cbn beta iota zeta delta [app negb
       initialized vectorstore qa_chain embeddings llm retriever prompt
       set_initialized set_vectorstore set_qa_chain set_embeddings set_llm
       set_retriever set_prompt res self_of world_of events
       chain_retriever chain_prompt chain_llm retriever_store retriever_k
       StrOutputParser is_RuntimeError fst snd] in *.

(** Case analysis on the next test or library call the run is stuck on. *)
Ltac split_next :=
  match goal with
  | |- context [path_exists ?e ?p ?w] =>
      destruct (path_exists e p w) eqn:?
  | |- context [TextLoader_load ?e ?p ?w] =>
      destruct (TextLoader_load e p w) as [[?|?] ?] eqn:?
  | |- context [split_documents ?e ?a ?b ?c ?d ?w] =>
      destruct (split_documents e a b c d w) as [[?|?] ?] eqn:?
  | |- context [HuggingFaceEmbeddings ?e ?n ?w] =>
      destruct (HuggingFaceEmbeddings e n w) as [[?|?] ?] eqn:?
  | |- context [Chroma_open ?e ?d ?m ?w] =>
      destruct (Chroma_open e d m w) as [[?|?] ?] eqn:?
  | |- context [Chroma_from_documents ?e ?t ?m ?d ?w] =>
      destruct (Chroma_from_documents e t m d w) as [[?|?] ?] eqn:?
  | |- context [OllamaLLM ?e ?c ?w] =>
      destruct (OllamaLLM e c w) as [[?|?] ?] eqn:?
  | |- context [retriever_invoke ?e ?v ?k ?q ?w] =>
      destruct (retriever_invoke e v k q w) as [[?|?] ?] eqn:?
  | |- context [llm_invoke ?e ?l ?p ?w] =>
      destruct (llm_invoke e l p w) as [[?|?] ?] eqn:?
  | |- context [format_pieces ?p ?d] =>
      destruct (format_pieces p d) eqn:?
  | |- context [is_RuntimeError ?e] => is_var e; destruct e
  end.

Ltac run_all := repeat (run_step; try split_next).

Section ServiceFacts.
Context {W Emb VS L : Type} (env : Env W Emb VS L).
Local Abbreviation Svc := (Service Emb VS L).

Lemma initialize_when_initialized (s : Svc) (w : W) :
  initialized s = true ->
  initialize env s w = mkOut (inr already_initialized) s w [].
Proof.
  intros Hi. unfold initialize, bind, get_self. rewrite Hi. reflexivity.
Qed.

Lemma initialize_when_not_initialized (s : Svc) (w : W) :
  initialized s = false ->
  initialize env s w =
  try_except (initialize_body env) initialize_failed s w.
Proof.
  intros Hi. unfold initialize, bind, get_self. rewrite Hi.
  destruct (try_except _ _ s w); reflexivity.
Qed.

(** A call of [initialize] that returns leaves the flag set. *)
Lemma initialize_returns_initialized (s : Svc) (w : W) (r : InitResult) :
  res (initialize env s w) = inr r ->
  initialized (self_of (initialize env s w)) = true.
Proof.
  destruct (initialized s) eqn:Hi.
  - rewrite initialize_when_initialized by assumption. intros _. exact Hi.
  - unfold_service. unfold_monad. rewrite Hi.
    run_all; intros; try discriminate; reflexivity.
Qed.


(** [ask_question] never assigns an attribute of the service. *)
Lemma ask_question_self (q : string) (s : Svc) (w : W) :
  self_of (ask_question env q s w) = s.
Proof.
  unfold_service. unfold_monad.
  destruct (initialized s); run_step; [|reflexivity].
  destruct (retriever s); run_all; try reflexivity;
    destruct (qa_chain s); run_all; reflexivity.
Qed.


End ServiceFacts.

(** ** Initialization *)

Section InitializeFacts.
Context {W Emb VS L : Type} (env : Env W Emb VS L).
Local Abbreviation Svc := (Service Emb VS L).

(** C1. Once a call of [initialize] has returned, every later call, in
    whatever state the outside world is by then, returns the
    "already_initialized" result, performs no effect at all (no loading,
    splitting, embedding or index building) and leaves every attribute of
    the service as it was. *)
Theorem C1_initialize_idempotent (s : Svc) (w : W) (r : InitResult) :
  res (initialize env s w) = inr r ->
  forall w' : W,
    initialize env (self_of (initialize env s w)) w' =
    mkOut (inr already_initialized) (self_of (initialize env s w)) w' [].
Proof.
  intros Hok w'. apply initialize_when_initialized.
  exact (initialize_returns_initialized env s w r Hok).
Qed.


End InitializeFacts.

Lemma C1_initialize_idempotent_witness :
  res (initialize Sim.env Sim.fresh_service Sim.first_run) =
    inr (mkInitResult "success" "RAG service initialized successfully" (Some 1)) /\
  initialize Sim.env Sim.ready_service Sim.ready_world =
    mkOut (inr already_initialized) Sim.ready_service Sim.ready_world [].
Proof.
  split.
  - vm_compute. reflexivity.
  - apply (C1_initialize_idempotent Sim.env Sim.fresh_service Sim.first_run
             (mkInitResult "success" "RAG service initialized successfully" (Some 1))).
    vm_compute. reflexivity.
Defined.



Section IndexFacts.
Context {W Emb VS L : Type} (env : Env W Emb VS L).
Local Abbreviation Svc := (Service Emb VS L).

(** C6. Let the speech file be there, the loader return its documents,
    the splitter (200 characters, overlap 50, separator ". ") return chunks
    of these documents, and the embedding model be created.  Then the
    existence of the index directory, tested in the world these calls left,
    alone chooses the branch.  If it exists, the persisted store is opened,
    with that directory and the embedding model just created, and no index
    is built from chunks.  Otherwise no store is opened and one index is
    built, from the chunks the splitter returned, with the embedding model
    and with the index directory as its persist directory.  Either call
    runs in the world the embedding step left.  If it raises, so does
    [initialize], and the world is as the call left it.  If it returns, its
    store becomes the vector store, and the model is created in the world
    the store call left: what the library wrote is kept.  The world after
    [initialize] is the one the last call left. *)
Theorem C6_directory_decides_reuse_or_rebuild
  (s : Svc) (w w1 w2 w3 : W) (documents texts : list Document) (emb : Emb) :
  initialized s = false ->
  path_exists env (SPEECH_FILE env) w = true ->
  TextLoader_load env (SPEECH_FILE env) w = (inr documents, w1) ->
  split_documents env 200 50 ". " documents w1 = (inr texts, w2) ->
  HuggingFaceEmbeddings env embedding_model w2 = (inr emb, w3) ->
  init_load env s w =
    mkOut (inr texts) (set_embeddings (Some emb) s) w3
      [EvLog INFO "Initializing RAG service...";
       EvLog INFO ("Loading speech from " ++ SPEECH_FILE env);
       EvLoad (SPEECH_FILE env);
       EvLog INFO "Splitting text into chunks";
       EvSplit 200 50 ". ";
       EvLog INFO "Loading HuggingFace embeddings";
       EvEmbeddings embedding_model] /\
  (if path_exists env (CHROMA_DB_DIR env) w3
   then
     count_events is_build (events (initialize env s w)) = 0 /\
     count_events is_open (events (initialize env s w)) = 1 /\
     In (EvChromaOpen (CHROMA_DB_DIR env)) (events (initialize env s w))
   else
     count_events is_open (events (initialize env s w)) = 0 /\
     count_events is_build (events (initialize env s w)) = 1 /\
     In (EvChromaFromDocuments texts (CHROMA_DB_DIR env))
        (events (initialize env s w))) /\
  match (if path_exists env (CHROMA_DB_DIR env) w3
         then Chroma_open env (CHROMA_DB_DIR env) (Some emb) w3
         else Chroma_from_documents env texts (Some emb) (CHROMA_DB_DIR env) w3)
  with
  | (inl e, w4) =>
      res (initialize env s w) = inl e /\
      world_of (initialize env s w) = w4 /\
      vectorstore (self_of (initialize env s w)) = vectorstore s
  | (inr vs, w4) =>
      vectorstore (self_of (initialize env s w)) = Some vs /\
      match OllamaLLM env ollama_config w4 with
      | (inl e, w5) =>
          res (initialize env s w) = inl e /\
          world_of (initialize env s w) = w5
      | (inr l, w5) =>
          res (initialize env s w) =
            inr (mkInitResult "success" "RAG service initialized successfully"
                              (Some (length texts))) /\
          world_of (initialize env s w) = w5 /\
          retriever (self_of (initialize env s w)) = Some (mkRetriever vs 3)
      end
  end.
Proof.
  intros Hi Hspeech Hload Hsplit Hemb.
  unfold_service. unfold_monad. rewrite Hi.
  run_step. rewrite Hspeech. run_step. rewrite Hload. run_step.
  rewrite Hsplit. run_step. rewrite Hemb. run_step.
  split; [reflexivity |].
  destruct (path_exists env (CHROMA_DB_DIR env) w3); run_step.
  - destruct (Chroma_open env (CHROMA_DB_DIR env) (Some emb) w3)
      as [[e | vs] w4]; run_step.
    + split; [split; [reflexivity | split; [reflexivity | cbn [In]; tauto]] |].
      repeat split; reflexivity.
    + destruct (OllamaLLM env ollama_config w4) as [[e | l] w5]; run_step;
        (split; [split; [reflexivity | split; [reflexivity | cbn [In]; tauto]] |]);
        repeat split; reflexivity.
  - destruct (Chroma_from_documents env texts (Some emb) (CHROMA_DB_DIR env) w3)
      as [[e | vs] w4]; run_step.
    + split; [split; [reflexivity | split; [reflexivity | cbn [In]; tauto]] |].
      repeat split; reflexivity.
    + destruct (OllamaLLM env ollama_config w4) as [[e | l] w5]; run_step;
        (split; [split; [reflexivity | split; [reflexivity | cbn [In]; tauto]] |]);
        repeat split; reflexivity.
Qed.

(** C7, as the code has it.  When segmentation gives zero chunks there is
    no empty-corpus check: [initialize] goes on to the vector store step
    (opening the directory if it exists, building from the empty list of
    chunks otherwise) and to the creation of the model.  It raises exactly
    when one of these two library calls raises, with that exception; the
    flag then stays [False] and [get_status] reports [initialized: False].
    When both return, [initialize] succeeds with [chunks_count] 0 and the
    flag is set. *)
Theorem C7_zero_chunks_not_rejected (s : Svc) (w : W) :
  initialized s = false ->
  res (init_load env s w) = inr [] ->
  let l := init_load env s w in
  let o := initialize env s w in
  let store_call :=
    if path_exists env (CHROMA_DB_DIR env) (world_of l)
    then Chroma_open env (CHROMA_DB_DIR env) (embeddings (self_of l)) (world_of l)
    else Chroma_from_documents env [] (embeddings (self_of l))
                               (CHROMA_DB_DIR env) (world_of l) in
  match fst store_call with
  | inl e =>
      res o = inl e /\ initialized (self_of o) = false /\
      forall w', res (get_status env (self_of o) w') =
                 inr (mkStatus false (path_exists env (SPEECH_FILE env) w')
                                     (path_exists env (CHROMA_DB_DIR env) w'))
  | inr _ =>
      match fst (OllamaLLM env ollama_config (snd store_call)) with
      | inl e =>
          res o = inl e /\ initialized (self_of o) = false /\
          forall w', res (get_status env (self_of o) w') =
                     inr (mkStatus false (path_exists env (SPEECH_FILE env) w')
                                         (path_exists env (CHROMA_DB_DIR env) w'))
      | inr _ =>
          res o = inr (mkInitResult "success"
                         "RAG service initialized successfully" (Some 0)) /\
          initialized (self_of o) = true
      end
  end.
Proof.
  intros Hi Hload.
  unfold_service. unfold_monad. rewrite Hi in *.
  repeat (run_step; try discriminate;
          try match goal with
              | H : inr _ = inr [] |- _ => injection H as ->
              end;
          try split_next);
    repeat split; try reflexivity; try assumption;
    intros w'; rewrite Hi; reflexivity.
Qed.

(** C8. [ask_question] never changes the service object, whether it
    returns or raises, so a later question meets the same service as it
    would have without the call.  On an initialized service nothing is
    swallowed: the call raises exactly when its [try] block raises, with the
    same exception, after logging it as the last effect; and the [try]
    block raises exactly when the first retrieval, the retrieval of the
    chain, the formatting of the prompt or the model raises, with that
    exception.  When none does, the answer of the model is returned. *)
Theorem C8_failed_question_keeps_service (q : string) (s : Svc) (w : W) :
  self_of (ask_question env q s w) = s /\
  (forall q' w',
      ask_question env q' (self_of (ask_question env q s w)) w' =
      ask_question env q' s w') /\
  (initialized s = true ->
   res (ask_question env q s w) = res (ask_question_body env q s w) /\
   world_of (ask_question env q s w) = world_of (ask_question_body env q s w) /\
   forall e,
     res (ask_question env q s w) = inl e ->
     events (ask_question env q s w) =
       (events (ask_question_body env q s w) ++
        [EvLog ERROR ("Error processing question: " ++ exc_str e)])%list /\
     last (events (ask_question env q s w)) =
       Some (EvLog ERROR ("Error processing question: " ++ exc_str e))) /\
  (forall rt c,
      initialized s = true ->
      retriever s = Some rt ->
      qa_chain s = Some c ->
      match retriever_invoke env (retriever_store rt) (retriever_k rt) q w with
      | (inl e, _) => res (ask_question env q s w) = inl e
      | (inr docs1, w1) =>
          match retriever_invoke env (retriever_store (chain_retriever c))
                  (retriever_k (chain_retriever c)) q w1 with
          | (inl e, _) => res (ask_question env q s w) = inl e
          | (inr docs2, w2) =>
              match format_pieces (chain_prompt c)
                      [("context", format_docs docs2); ("question", q)] with
              | inl e => res (ask_question env q s w) = inl e
              | inr text =>
                  match llm_invoke env (chain_llm c) [HumanMessage text] w2 with
                  | (inl e, _) => res (ask_question env q s w) = inl e
                  | (inr out, _) =>
                      res (ask_question env q s w) =
                        inr (mkAskResult q out (map to_source docs1)
                               (length (map to_source docs1)))
                  end
              end
          end
      end).
Proof.
  pose proof (ask_question_self env q s w) as Hself.
  split; [exact Hself |]. split; [intros q' w'; rewrite Hself; reflexivity |].
  clear Hself. split.
  - intros Hi.
    unfold ask_question, bind, get_self. rewrite Hi. cbn [negb].
    unfold try_except.
    destruct (ask_question_body env q s w) as [[e' | r'] s1 w1 tr].
    + unfold ask_question_failed. unfold_monad. run_step.
      split; [reflexivity |]. split; [reflexivity |].
      intros e He. injection He as ->. split; [reflexivity | apply last_snoc].
    + run_step. split; [reflexivity |]. split; [reflexivity |].
      intros e He. discriminate He.
  - intros rt c Hi Hr Hc.
    unfold_service. unfold_monad. rewrite Hi. run_step. rewrite Hr. run_step.
    destruct (retriever_invoke env (retriever_store rt) (retriever_k rt) q w)
      as [[e | docs1] w1]; run_step; [reflexivity |].
    rewrite Hc. run_step.
    destruct (retriever_invoke env (retriever_store (chain_retriever c))
                (retriever_k (chain_retriever c)) q w1)
      as [[e | docs2] w2]; run_step; [reflexivity |].
    destruct (format_pieces (chain_prompt c)
                [("context", format_docs docs2); ("question", q)])
      as [e | text]; run_step; [reflexivity |].
    destruct (llm_invoke env (chain_llm c) [HumanMessage text] w2)
      as [[e | out] w3]; run_step; reflexivity.
Qed.

End IndexFacts.

Lemma C6_directory_decides_reuse_or_rebuild_witness :
  initialized Sim.fresh_service = false /\
  path_exists Sim.env (CHROMA_DB_DIR Sim.env) Sim.first_run = false /\
  In (EvChromaFromDocuments [Sim.speech_chunk] (CHROMA_DB_DIR Sim.env))
     (events (initialize Sim.env Sim.fresh_service Sim.first_run)) /\
  vectorstore (self_of (initialize Sim.env Sim.fresh_service Sim.first_run)) =
    Some "/app/chroma_db" /\
  world_of (initialize Sim.env Sim.fresh_service Sim.first_run) =
    Sim.mkWorld (Some Sim.short_speech) (Some [Sim.speech_chunk]) [] [].
Proof.
  split; [reflexivity |]. split; [vm_compute; reflexivity |].
  pose proof (C6_directory_decides_reuse_or_rebuild Sim.env Sim.fresh_service
                Sim.first_run Sim.first_run Sim.first_run Sim.first_run
                [Sim.speech_chunk] [Sim.speech_chunk]
                "sentence-transformers/all-MiniLM-L6-v2"
                eq_refl eq_refl eq_refl eq_refl eq_refl) as (_ & H2 & H3).
  assert (Hd : path_exists Sim.env (CHROMA_DB_DIR Sim.env) Sim.first_run = false)
    by (vm_compute; reflexivity).
  rewrite Hd in H2, H3.
  split; [exact (proj2 (proj2 H2)) |].
  assert (Hb : Chroma_from_documents Sim.env [Sim.speech_chunk]
                 (Some "sentence-transformers/all-MiniLM-L6-v2")
                 (CHROMA_DB_DIR Sim.env) Sim.first_run =
               (inr "/app/chroma_db",
                Sim.mkWorld (Some Sim.short_speech) (Some [Sim.speech_chunk])
                            [] []))
    by (vm_compute; reflexivity).
  rewrite Hb in H3. destruct H3 as (Hvs & H3).
  split; [exact Hvs |].
  assert (Ho : OllamaLLM Sim.env ollama_config
                 (Sim.mkWorld (Some Sim.short_speech) (Some [Sim.speech_chunk])
                              [] []) =
               (inr ollama_config,
                Sim.mkWorld (Some Sim.short_speech) (Some [Sim.speech_chunk])
                            [] []))
    by (vm_compute; reflexivity).
  rewrite Ho in H3. exact (proj1 (proj2 H3)).
Defined.

(** C7 as stated does not hold: with an empty speech file and an index
    directory left from an earlier run, [initialize] succeeds with zero
    chunks and the status reports [initialized: True]. *)
Lemma C7_empty_document_initializes :
  res (initialize Sim.env Sim.fresh_service Sim.empty_speech_old_index) =
    inr (mkInitResult "success" "RAG service initialized successfully" (Some 0)) /\
  res (get_status Sim.env
         (self_of (initialize Sim.env Sim.fresh_service Sim.empty_speech_old_index))
         (world_of (initialize Sim.env Sim.fresh_service Sim.empty_speech_old_index))) =
    inr (mkStatus true true true).
Proof. split; vm_compute; reflexivity. Qed.

Lemma C7_zero_chunks_not_rejected_witness :
  initialized Sim.fresh_service = false /\
  res (init_load Sim.env Sim.fresh_service Sim.empty_speech_old_index) = inr [] /\
  res (initialize Sim.env Sim.fresh_service Sim.empty_speech_old_index) =
    inr (mkInitResult "success" "RAG service initialized successfully" (Some 0)).
Proof.
  split; [reflexivity |]. split; [vm_compute; reflexivity |].
  assert (Hl : res (init_load Sim.env Sim.fresh_service
                      Sim.empty_speech_old_index) = inr [])
    by (vm_compute; reflexivity).
  exact (proj1 (C7_zero_chunks_not_rejected Sim.env Sim.fresh_service
                  Sim.empty_speech_old_index eq_refl Hl)).
Defined.

Lemma C8_failed_question_keeps_service_witness :
  initialized Sim.ready_service = true /\
  res (ask_question Sim.env "What is caste?" Sim.ready_service Sim.model_down) =
    inl (LibraryError "ConnectError" "Connection refused") /\
  self_of (ask_question Sim.env "What is caste?" Sim.ready_service Sim.model_down) =
    Sim.ready_service /\
  last (events (ask_question Sim.env "What is caste?" Sim.ready_service
                             Sim.model_down)) =
    Some (EvLog ERROR "Error processing question: Connection refused").
Proof.
  assert (Hi : initialized Sim.ready_service = true) by (vm_compute; reflexivity).
  split; [exact Hi |].
  pose proof (C8_failed_question_keeps_service Sim.env "What is caste?"
                Sim.ready_service Sim.model_down) as (H1 & _ & H3 & H4).
  specialize (H4 (mkRetriever "/app/chroma_db" 3)
                 (mkChain (mkRetriever "/app/chroma_db" 3)
                          (from_template template) ollama_config)
                 Hi).
  assert (Hr : retriever Sim.ready_service =
               Some (mkRetriever "/app/chroma_db" 3))
    by (vm_compute; reflexivity).
  assert (Hc : qa_chain Sim.ready_service =
               Some (mkChain (mkRetriever "/app/chroma_db" 3)
                             (from_template template) ollama_config))
    by (vm_compute; reflexivity).
  specialize (H4 Hr Hc). vm_compute in H4.
  split; [exact H4 |]. split; [exact H1 |].
  exact (proj2 (proj2 (proj2 (H3 Hi)) _ H4)).
Defined.

(** ** Answering *)

Lemma sources_content (docs : list Document) :
  map content (map to_source docs) = map page_content docs.
Proof.
  induction docs as [| d docs IH]; [reflexivity |].
  cbn [map]. rewrite IH. reflexivity.
Qed.

Lemma count_events_app (p : Event -> bool) (a b : list Event) :
  count_events p (a ++ b) = count_events p a + count_events p b.
Proof.
  unfold count_events. induction a as [| x a IH]; [reflexivity |].
  cbn [app List.filter]. destruct (p x); cbn [length]; rewrite IH; reflexivity.
Qed.

Section AnswerFacts.
Context {W Emb VS L : Type} (env : Env W Emb VS L).
Local Abbreviation Svc := (Service Emb VS L).

(** C2, as the code has it.  A question that is answered goes through two
    retrieval calls with the same question, one after the other: the first,
    on [self.retriever], gives the documents listed as [sources]; the
    second, made inside the chain on the chain's retriever in the world the
    first one left, gives the documents whose texts are joined into the
    context of the prompt the model answers.  When the two calls give the
    same documents, the texts listed as sources are exactly those of the
    context. *)
Theorem C2_sources_and_context_from_two_retrievals
  (q : string) (s : Svc) (w : W) (r : AskResult) :
  res (ask_question env q s w) = inr r ->
  exists rt c docs1 w1 docs2 w2 text w3,
    retriever s = Some rt /\ qa_chain s = Some c /\
    retriever_invoke env (retriever_store rt) (retriever_k rt) q w
      = (inr docs1, w1) /\
    retriever_invoke env (retriever_store (chain_retriever c))
                     (retriever_k (chain_retriever c)) q w1
      = (inr docs2, w2) /\
    format_pieces (chain_prompt c)
                  [("context", format_docs docs2); ("question", q)]
      = inr text /\
    llm_invoke env (chain_llm c) [HumanMessage text] w2 = (inr (answer r), w3) /\
    sources r = map to_source docs1 /\
    count_events is_retrieve (events (ask_question env q s w)) = 2 /\
    (docs1 = docs2 ->
     join "\n\n" (map content (sources r)) = format_docs docs2).
Proof.
  unfold_service. unfold_monad.
  destruct (initialized s); run_step; [| discriminate].
  destruct (retriever s) as [rt |]; run_step; [| discriminate].
  destruct (retriever_invoke env (retriever_store rt) (retriever_k rt) q w)
    as [[e1 | docs1] w1] eqn:H1; run_step; [discriminate |].
  destruct (qa_chain s) as [c |]; run_step; [| discriminate].
  destruct (retriever_invoke env (retriever_store (chain_retriever c))
              (retriever_k (chain_retriever c)) q w1)
    as [[e2 | docs2] w2] eqn:H2; run_step; [discriminate |].
  destruct (format_pieces (chain_prompt c)
              [("context", format_docs docs2); ("question", q)])
    as [e3 | text] eqn:H3; run_step; [discriminate |].
  destruct (llm_invoke env (chain_llm c) [HumanMessage text] w2)
    as [[e4 | out] w3] eqn:H4; run_step; [discriminate |].
  intros Hr. injection Hr as <-.
  exists rt, c, docs1, w1, docs2, w2, text, w3.
  repeat (split; [reflexivity || assumption |]).
  cbn [sources]. intros ->. rewrite sources_content. reflexivity.
Qed.

Lemma initialize_starts_once (s : Svc) (w : W) :
  initialized s = false ->
  count_events is_init_start (events (initialize env s w)) = 1.
Proof.
  intros Hi. unfold_service. unfold_monad. rewrite Hi.
  run_all; reflexivity.
Qed.

Lemma ask_question_no_init_start (q : string) (s : Svc) (w : W) :
  count_events is_init_start (events (ask_question env q s w)) = 0.
Proof.
  unfold_service. unfold_monad.
  destruct (initialized s); run_step; [| reflexivity].
  destruct (retriever s); run_all; try reflexivity;
    destruct (qa_chain s); run_all; reflexivity.
Qed.

(** The ask handler on a service that is not initialized, in terms of the
    two methods it calls. *)
Lemma ask_endpoint_when_not_initialized (q : string) (s : Svc) (w : W) :
  initialized s = false ->
  ask_endpoint env q s w =
    match initialize env s w with
    | mkOut (inl e) s1 w1 tr1 =>
        if is_RuntimeError e
        then mkOut (inr (HTTPException 503 "RAG service not initialized"))
                   s1 w1 tr1
        else mkOut (inr (HTTPException 500 (exc_str e))) s1 w1
                   (tr1 ++ [EvLog ERROR ("Error processing question: "
                                         ++ exc_str e)])%list
    | mkOut (inr _) s1 w1 tr1 =>
        match ask_question env q s1 w1 with
        | mkOut (inr r) s2 w2 tr2 =>
            mkOut (inr (Body r)) s2 w2 (tr1 ++ tr2)%list
        | mkOut (inl e) s2 w2 tr2 =>
            if is_RuntimeError e
            then mkOut (inr (HTTPException 503 "RAG service not initialized"))
                       s2 w2 (tr1 ++ tr2)%list
            else mkOut (inr (HTTPException 500 (exc_str e))) s2 w2
                       (tr1 ++ tr2 ++
                        [EvLog ERROR ("Error processing question: "
                                      ++ exc_str e)])%list
        end
    end.
Proof.
  intros Hi.
  unfold ask_endpoint, try_except, bind, get_self, ret. rewrite Hi. cbn [negb].
  destruct (initialize env s w) as [[e | ir] s1 w1 tr1]; run_step.
  - unfold logger_error, emit.
    destruct e; run_step; rewrite ?app_nil_r; reflexivity.
  - destruct (ask_question env q s1 w1) as [[e | r] s2 w2 tr2]; run_step.
    + unfold logger_error, emit.
      destruct e; run_step; rewrite ?app_nil_r, <- ?app_assoc; reflexivity.
    + rewrite !app_nil_r. reflexivity.
Qed.

(** C3. On a service that is not initialized, [ask_question] raises the
    not-initialized error, with no effect and no change of the service.
    The HTTP handler then runs [initialize] exactly once, on the service
    and in the world it was called with, before anything else.  When that
    initialization raises, the handler does nothing more to the service or
    the world: it answers with an HTTP error, 503 for a [RuntimeError] and
    500, after logging, for any other exception.  When it returns, the
    handler runs [ask_question] on the service and in the world the
    initialization left, and returns a body only when that call returned
    it; the effects of the request are those of the initialization followed
    by those of the question. *)
Theorem C3_not_ready_never_answers (q : string) (s : Svc) (w : W) :
  initialized s = false ->
  ask_question env q s w = mkOut (inl not_initialized) s w [] /\
  count_events is_init_start (events (ask_endpoint env q s w)) = 1 /\
  (forall r,
      res (ask_endpoint env q s w) = inr (Body r) ->
      exists ir,
        res (initialize env s w) = inr ir /\
        res (ask_question env q (self_of (initialize env s w))
                          (world_of (initialize env s w))) = inr r) /\
  (forall e,
      res (initialize env s w) = inl e ->
      exists code detail,
        res (ask_endpoint env q s w) = inr (HTTPException code detail)) /\
  ask_endpoint env q s w =
    match initialize env s w with
    | mkOut (inl e) s1 w1 tr1 =>
        if is_RuntimeError e
        then mkOut (inr (HTTPException 503 "RAG service not initialized"))
                   s1 w1 tr1
        else mkOut (inr (HTTPException 500 (exc_str e))) s1 w1
                   (tr1 ++ [EvLog ERROR ("Error processing question: "
                                         ++ exc_str e)])%list
    | mkOut (inr _) s1 w1 tr1 =>
        match ask_question env q s1 w1 with
        | mkOut (inr r) s2 w2 tr2 =>
            mkOut (inr (Body r)) s2 w2 (tr1 ++ tr2)%list
        | mkOut (inl e) s2 w2 tr2 =>
            if is_RuntimeError e
            then mkOut (inr (HTTPException 503 "RAG service not initialized"))
                       s2 w2 (tr1 ++ tr2)%list
            else mkOut (inr (HTTPException 500 (exc_str e))) s2 w2
                       (tr1 ++ tr2 ++
                        [EvLog ERROR ("Error processing question: "
                                      ++ exc_str e)])%list
        end
    end.
Proof.
  intros Hi. split.
  { unfold ask_question, bind, get_self. rewrite Hi. reflexivity. }
  pose proof (initialize_starts_once s w Hi) as Hone.
  pose proof (ask_endpoint_when_not_initialized q s w Hi) as Hrun.
  rewrite Hrun. clear Hrun.
  destruct (initialize env s w) as [[e | ir] s1 w1 tr1]; run_step.
  - destruct (is_RuntimeError e); run_step;
      (split; [rewrite ?count_events_app, Hone; reflexivity | split];
       [ intros ? Hb; discriminate Hb
       | split; [intros ? _; eauto | reflexivity] ]).
  - pose proof (ask_question_no_init_start q s1 w1) as Hnone.
    destruct (ask_question env q s1 w1) as [[e | r] s2 w2 tr2]; run_step.
    + destruct (is_RuntimeError e); run_step;
        (split; [rewrite !count_events_app, Hone, Hnone; reflexivity | split];
         [ intros ? Hb; discriminate Hb
         | split; [intros ? He; discriminate He | reflexivity] ]).
    + split; [rewrite !count_events_app, Hone, Hnone; reflexivity | split].
      * intros ? Hb. injection Hb as <-. eauto.
      * split; [intros ? He; discriminate He | reflexivity].
Qed.

End AnswerFacts.

(** C2 as stated does not hold: [ask_question] retrieves twice, and when
    the collection changes between the two calls the source shown is chunk
    A while the context the model answered from is chunk B. *)
Lemma C2_sources_differ_from_context :
  res (ask_question Sim.env "What is caste?" Sim.ready_service Sim.drifting) =
    inr (mkAskResult "What is caste?" "Liberty, equality and fraternity."
                     [mkSource "A" []] 1) /\
  events (ask_question Sim.env "What is caste?" Sim.ready_service Sim.drifting) =
    [EvLog INFO "Processing question: What is caste?";
     EvRetrieve 3 "What is caste?";
     EvRetrieve 3 "What is caste?";
     EvGenerate
       [HumanMessage
          ("Answer the question based on the following context from Dr. B.R. Ambedkar's speech:"
           ++ LF ++ LF ++ "Context: B"
           ++ LF ++ LF ++ "Question: What is caste?"
           ++ LF ++ LF ++ "Answer: ")]] /\
  count_events is_retrieve
    (events (ask_question Sim.env "What is caste?" Sim.ready_service Sim.drifting))
    = 2.
Proof. repeat split; vm_compute; reflexivity. Qed.

Lemma C2_sources_and_context_from_two_retrievals_witness :
  res (ask_question Sim.env "What is caste?" Sim.ready_service Sim.ready_world) =
    inr (mkAskResult "What is caste?" "Liberty, equality and fraternity."
                     [mkSource Sim.short_speech [("source", "/app/speech.txt")]] 1) /\
  count_events is_retrieve
    (events (ask_question Sim.env "What is caste?" Sim.ready_service
                          Sim.ready_world)) = 2.
Proof.
  assert (H : res (ask_question Sim.env "What is caste?" Sim.ready_service
                                Sim.ready_world) =
              inr (mkAskResult "What is caste?" "Liberty, equality and fraternity."
                     [mkSource Sim.short_speech [("source", "/app/speech.txt")]] 1))
    by (vm_compute; reflexivity).
  split; [exact H |].
  destruct (C2_sources_and_context_from_two_retrievals Sim.env _ _ _ _ H)
    as (rt & c & docs1 & w1 & docs2 & w2 & text & w3 & _ & _ & _ & _ & _ & _ & _ & Hn & _).
  exact Hn.
Defined.

Lemma C3_not_ready_never_answers_witness :
  initialized Sim.fresh_service = false /\
  ask_question Sim.env "What is caste?" Sim.fresh_service Sim.first_run =
    mkOut (inl not_initialized) Sim.fresh_service Sim.first_run [] /\
  count_events is_init_start
    (events (ask_endpoint Sim.env "What is caste?" Sim.fresh_service Sim.first_run))
    = 1 /\
  ask_endpoint Sim.env "What is caste?" Sim.fresh_service Sim.first_run =
    mkOut (inr (Body (mkAskResult "What is caste?"
                        "Liberty, equality and fraternity."
                        [mkSource Sim.short_speech
                                  [("source", "/app/speech.txt")]] 1)))
          Sim.ready_service Sim.ready_world
          (events Sim.ready ++
           events (ask_question Sim.env "What is caste?" Sim.ready_service
                                Sim.ready_world))%list.
Proof.
  split; [reflexivity |].
  pose proof (C3_not_ready_never_answers Sim.env "What is caste?"
                Sim.fresh_service Sim.first_run eq_refl) as (H1 & H2 & _ & _ & H5).
  split; [exact H1 |]. split; [exact H2 |].
  rewrite H5. vm_compute. reflexivity.
Defined.

(** C4 does not hold on the code: the separator of [format_docs] is the
    four characters backslash, n, backslash, n, not two line breaks.  With
    two chunks A and B retrieved, the context handed to the model is A,
    those four characters, B. *)
Theorem C4_context_joined_by_literal_backslash_n :
  format_docs [Sim.chunk_a; Sim.chunk_b] = "A\n\nB" /\
  String.length (format_docs [Sim.chunk_a; Sim.chunk_b]) = 6 /\
  format_docs [Sim.chunk_a; Sim.chunk_b] <> "A" ++ LF ++ LF ++ "B" /\
  events (ask_question Sim.env "What is caste?" Sim.ready_service Sim.two_chunks) =
    [EvLog INFO "Processing question: What is caste?";
     EvRetrieve 3 "What is caste?";
     EvRetrieve 3 "What is caste?";
     EvGenerate
       [HumanMessage
          ("Answer the question based on the following context from Dr. B.R. Ambedkar's speech:"
           ++ LF ++ LF ++ "Context: A\n\nB"
           ++ LF ++ LF ++ "Question: What is caste?"
           ++ LF ++ LF ++ "Answer: ")]].
Proof.
  split; [reflexivity |]. split; [reflexivity |].
  split; [intros H; vm_compute in H; discriminate H |].
  vm_compute. reflexivity.
Qed.

(** ** Callers racing on [initialize] *)

Section RaceFacts.
Context {W Emb VS L : Type} (env : Env W Emb VS L).
Local Abbreviation Svc := (Service Emb VS L).

Lemma schedule_step_at (cs : list Caller) (s : Svc) (w : W) (h : list Event)
  (i : nat) (c : Caller) :
  cs !! i = Some c ->
  schedule_step env (mkRace cs s w h) i =
  match caller_step env c s w with
  | mkOut (inl _) _ _ _ => mkRace cs s w h
  | mkOut (inr c') s1 w1 tr => mkRace (<[i := c']> cs) s1 w1 (h ++ tr)
  end.
Proof.
  intros H. unfold schedule_step. cbn [callers shared outside history].
  rewrite H. reflexivity.
Qed.

Lemma schedule_step_inserted (cs : list Caller) (s : Svc) (w : W)
  (h : list Event) (i : nat) (c0 c : Caller) :
  cs !! i = Some c0 ->
  schedule_step env (mkRace (<[i := c]> cs) s w h) i =
  match caller_step env c s w with
  | mkOut (inl _) _ _ _ => mkRace (<[i := c]> cs) s w h
  | mkOut (inr c') s1 w1 tr => mkRace (<[i := c']> cs) s1 w1 (h ++ tr)
  end.
Proof.
  intros H. rewrite (schedule_step_at _ _ _ _ i c).
  - destruct (caller_step env c s w) as [[e | c'] s1 w1 tr]; [reflexivity |].
    rewrite list_insert_insert_eq. reflexivity.
  - apply list_lookup_insert_eq. exact (lookup_lt_Some _ _ _ H).
Qed.

Lemma caller_step_entry (s : Svc) (w : W) :
  caller_step env AtEntry s w =
  mkOut (inr (if initialized s then Returned (inr already_initialized)
              else InTry)) s w [].
Proof.
  unfold caller_step, bind, get_self, ret. destruct (initialized s); reflexivity.
Qed.

(** A caller that runs its three stretches with no other caller in between
    does what a plain call of [initialize] does. *)
Lemma caller_alone (cs : list Caller) (s : Svc) (w : W) (h : list Event)
  (i : nat) :
  cs !! i = Some AtEntry ->
  run_schedule env [i; i; i] (mkRace cs s w h) =
  mkRace (<[i := Returned (res (initialize env s w))]> cs)
         (self_of (initialize env s w)) (world_of (initialize env s w))
         (h ++ events (initialize env s w)).
Proof.
  intros Hl. unfold run_schedule. cbn [fold_left].
  rewrite (schedule_step_at _ _ _ _ i AtEntry Hl), caller_step_entry.
  destruct (initialized s) eqn:Hi.
  - rewrite (schedule_step_inserted _ _ _ _ i AtEntry _ Hl). cbn [caller_step ret].
    rewrite (schedule_step_inserted _ _ _ _ i AtEntry _ Hl). cbn [caller_step ret].
    rewrite initialize_when_initialized by assumption.
    cbn [res self_of world_of events]. rewrite !app_nil_r. reflexivity.
  - rewrite (schedule_step_inserted _ _ _ _ i AtEntry _ Hl).
    rewrite initialize_when_not_initialized by assumption.
    unfold initialize_body, try_except. cbn [caller_step]. unfold in_try, bind.
    destruct (init_load env s w) as [[e | texts] s1 w1 tr1].
    + unfold initialize_failed, logger_error, emit, raise, bind.
      rewrite (schedule_step_inserted _ _ _ _ i AtEntry _ Hl).
      cbn [caller_step ret res self_of world_of events].
      rewrite !app_nil_r. reflexivity.
    + destruct (index_present env s1 w1) as [[e | present] s2 w2 tr2].
      * unfold initialize_failed, logger_error, emit, raise, bind.
        rewrite (schedule_step_inserted _ _ _ _ i AtEntry _ Hl).
        cbn [caller_step ret res self_of world_of events].
        rewrite !app_nil_r. reflexivity.
      * cbn [ret fst snd].
        rewrite (schedule_step_inserted _ _ _ _ i AtEntry _ Hl).
        cbn [caller_step]. unfold in_try, bind.
        destruct (init_store env present texts s2 w2) as [[e | u] s3 w3 tr3].
        -- unfold initialize_failed, logger_error, emit, raise, bind.
           cbn [res self_of world_of events].
           rewrite !app_nil_r, <- !app_assoc. reflexivity.
        -- destruct (init_chain env texts s3 w3) as [[e | r] s4 w4 tr4].
           ++ unfold initialize_failed, logger_error, emit, raise, bind.
              cbn [res self_of world_of events].
              rewrite !app_nil_r, <- !app_assoc. reflexivity.
           ++ cbn [res self_of world_of events].
              rewrite !app_nil_r, <- !app_assoc. reflexivity.
Qed.

Lemma run_schedule_app (a b : list nat) (sys : Race W Emb VS L) :
  run_schedule env (a ++ b) sys = run_schedule env b (run_schedule env a sys).
Proof. unfold run_schedule. apply fold_left_app. Qed.

(** Callers that enter one after the other on an initialized service all
    get the "already_initialized" result, with no effect. *)
Lemma late_callers (m : nat) :
  forall (served : list Caller) (s : Svc) (w : W) (h : list Event),
    initialized s = true ->
    run_schedule env (flat_map (fun i => [i; i; i]) (seq (length served) m))
                 (mkRace (served ++ repeat AtEntry m) s w h) =
    mkRace (served ++ repeat (Returned (inr already_initialized)) m) s w h.
Proof.
  induction m as [| m IH]; intros served s w h Hi.
  - reflexivity.
  - cbn [seq flat_map repeat].
    rewrite run_schedule_app.
    rewrite caller_alone by (apply list_lookup_middle; reflexivity).
    rewrite initialize_when_initialized by assumption.
    cbn [res self_of world_of events]. rewrite app_nil_r.
    rewrite insert_app_r_alt by lia. rewrite Nat.sub_diag.
    cbn [insert list_insert].
    pose proof (IH (served ++ [Returned (inr already_initialized)])%list s w h Hi)
      as H.
    rewrite length_app in H. cbn [length] in H. rewrite Nat.add_1_r in H.
    rewrite <- !app_assoc in H. exact H.
Qed.

Lemma initialize_builds_at_most_once (s : Svc) (w : W) :
  count_events is_build (events (initialize env s w)) <= 1.
Proof.
  destruct (initialized s) eqn:Hi.
  - rewrite initialize_when_initialized by assumption. cbn. lia.
  - unfold_service. unfold_monad. rewrite Hi.
    run_all; cbn; lia.
Qed.

(** C9, as the code has it.  There is no lock; the flag is the only guard.
    When the callers are served one after the other, each to completion,
    and the first call returns, the first caller gets the result of that
    call, every other caller gets "already_initialized", the effects of the
    whole run are those of the first call (hence at most one index build),
    and the service is left initialized. *)
Theorem C9_callers_served_one_by_one
  (s : Svc) (w : W) (r : InitResult) (n : nat) :
  res (initialize env s w) = inr r ->
  run_schedule env (one_by_one (S n)) (race_start (S n) s w) =
    mkRace (Returned (inr r) :: repeat (Returned (inr already_initialized)) n)
           (self_of (initialize env s w)) (world_of (initialize env s w))
           (events (initialize env s w)) /\
  initialized (self_of (initialize env s w)) = true /\
  count_events is_build (events (initialize env s w)) <= 1.
Proof.
  intros Hok.
  pose proof (initialize_returns_initialized env s w r Hok) as Hflag.
  split; [| split; [exact Hflag | apply initialize_builds_at_most_once]].
  unfold one_by_one, race_start. cbn [seq flat_map repeat].
  rewrite run_schedule_app.
  rewrite caller_alone by reflexivity.
  rewrite Hok. cbn [insert list_insert app].
  exact (late_callers n [Returned (inr r)] _ _ _ Hflag).
Qed.

End RaceFacts.

(** C9 as stated does not hold: two callers that both test the flag, and
    then both test the index directory, before either builds, each run the
    whole initialization: two embedding models loaded, two indexes built. *)
Lemma C9_two_callers_two_builds :
  count_events is_build
    (history (run_schedule Sim.env [0; 1; 0; 1; 0; 1]
                (race_start 2 Sim.fresh_service Sim.first_run))) = 2 /\
  count_events is_embeddings
    (history (run_schedule Sim.env [0; 1; 0; 1; 0; 1]
                (race_start 2 Sim.fresh_service Sim.first_run))) = 2 /\
  callers (run_schedule Sim.env [0; 1; 0; 1; 0; 1]
             (race_start 2 Sim.fresh_service Sim.first_run)) =
    [Returned (inr (mkInitResult "success"
                      "RAG service initialized successfully" (Some 1)));
     Returned (inr (mkInitResult "success"
                      "RAG service initialized successfully" (Some 1)))].
Proof. repeat split; vm_compute; reflexivity. Qed.

Lemma C9_callers_served_one_by_one_witness :
  res (initialize Sim.env Sim.fresh_service Sim.first_run) =
    inr (mkInitResult "success" "RAG service initialized successfully" (Some 1)) /\
  callers (run_schedule Sim.env (one_by_one 5)
             (race_start 5 Sim.fresh_service Sim.first_run)) =
    Returned (inr (mkInitResult "success"
                     "RAG service initialized successfully" (Some 1)))
    :: repeat (Returned (inr already_initialized)) 4.
Proof.
  assert (H : res (initialize Sim.env Sim.fresh_service Sim.first_run) =
              inr (mkInitResult "success"
                     "RAG service initialized successfully" (Some 1)))
    by (vm_compute; reflexivity).
  split; [exact H |].
  rewrite (proj1 (C9_callers_served_one_by_one Sim.env Sim.fresh_service
                    Sim.first_run _ 4 H)).
  reflexivity.
Defined.

(** ** The singleton constructor *)

Section SingletonFacts.
Context {W Emb VS L : Type} (env : Env W Emb VS L).
Local Abbreviation Svc := (Service Emb VS L).
Local Abbreviation Cls := (ClassState Emb VS L).

Lemma RAGService_init_instance (r : ref) (st : Cls) :
  RAGService_instance (RAGService_init r st) = RAGService_instance st.
Proof.
  unfold RAGService_init. destruct (heap st !! r) as [s |]; [| reflexivity].
  destruct (negb (initialized s)); reflexivity.
Qed.

(** After a constructor call the class attribute holds the reference
    returned. *)
Lemma RAGService_call_instance (st : Cls) :
  RAGService_instance (snd (RAGService_call st)) =
  Some (fst (RAGService_call st)).
Proof.
  unfold RAGService_call, RAGService_new.
  destruct (RAGService_instance st) as [r |] eqn:Hr; cbn [fst snd];
    rewrite RAGService_init_instance; [exact Hr | reflexivity].
Qed.

(** Once the class attribute is set, a constructor call returns it. *)
Lemma RAGService_call_existing (st : Cls) (r : ref) :
  RAGService_instance st = Some r ->
  fst (RAGService_call st) = r.
Proof.
  intros Hr. unfold RAGService_call, RAGService_new. rewrite Hr. reflexivity.
Qed.

Lemma RAGService_calls_existing (n : nat) :
  forall (st : Cls) (r : ref),
    RAGService_instance st = Some r ->
    fst (RAGService_calls n st) = repeat r n.
Proof.
  induction n as [| n IH]; intros st r Hr; [reflexivity |].
  cbn [RAGService_calls repeat].
  pose proof (RAGService_call_existing st r Hr) as H1.
  pose proof (RAGService_call_instance st) as H2.
  destruct (RAGService_call st) as [r1 st1]. cbn [fst snd] in *. subst r1.
  specialize (IH st1 r H2).
  destruct (RAGService_calls n st1) as [rs st2]. cbn [fst] in *.
  rewrite IH. reflexivity.
Qed.

(** A constructor call on an initialized singleton changes nothing. *)
Lemma RAGService_call_initialized (st : Cls) (r : ref) (s : Svc) :
  RAGService_instance st = Some r ->
  heap st !! r = Some s ->
  initialized s = true ->
  RAGService_call st = (r, st).
Proof.
  intros Hr Hs Hi. unfold RAGService_call, RAGService_new. rewrite Hr.
  unfold RAGService_init. rewrite Hs, Hi. reflexivity.
Qed.

Lemma RAGService_calls_initialized (n : nat) (st : Cls) (r : ref) (s : Svc) :
  RAGService_instance st = Some r ->
  heap st !! r = Some s ->
  initialized s = true ->
  RAGService_calls n st = (repeat r n, st).
Proof.
  intros Hr Hs Hi. induction n as [| n IH]; [reflexivity |].
  cbn [RAGService_calls repeat].
  rewrite (RAGService_call_initialized st r s Hr Hs Hi), IH. reflexivity.
Qed.

(** C10.  Any number of constructor calls in a row return one and the same
    reference.  And when [initialize] has been run with success on the
    object a constructor call returned, any number of later constructor
    calls return that same reference and leave the whole state unchanged:
    the flag, the vector store, the chain and every other attribute. *)
Theorem C10_singleton_survives_construction (st : Cls) (n : nat) :
  (exists r, fst (RAGService_calls (S n) st) = repeat r (S n)) /\
  (forall (r : ref) (st1 : Cls) (w : W) (o : Out Cls W InitResult)
          (ir : InitResult),
      RAGService_call st = (r, st1) ->
      on_object r (initialize env) st1 w = Some o ->
      res o = inr ir ->
      RAGService_calls n (self_of o) = (repeat r n, self_of o) /\
      exists s, heap (self_of o) !! r = Some s /\ initialized s = true).
Proof.
  split.
  - exists (fst (RAGService_call st)).
    cbn [RAGService_calls repeat].
    pose proof (RAGService_call_instance st) as H.
    destruct (RAGService_call st) as [r st1]. cbn [fst snd] in *.
    pose proof (RAGService_calls_existing n st1 r H) as Hn.
    destruct (RAGService_calls n st1) as [rs st2]. cbn [fst] in *.
    rewrite Hn. reflexivity.
  - intros r st1 w o ir Hcall Hrun Hres.
    pose proof (RAGService_call_instance st) as Hinst.
    rewrite Hcall in Hinst. cbn [fst snd] in Hinst.
    unfold on_object in Hrun.
    destruct (heap st1 !! r) as [s0 |] eqn:Hs0; [| discriminate].
    pose proof (initialize_returns_initialized env s0 w) as Hflag.
    destruct (initialize env s0 w) as [x s1 w1 tr].
    injection Hrun as <-. cbn [res self_of] in *.
    specialize (Hflag ir Hres).
    assert (Hlook : heap (mkClassState (<[r := s1]> (heap st1))
                                       (RAGService_instance st1)) !! r
                    = Some s1).
    { cbn [heap]. apply lookup_insert_eq. }
    split.
    + apply (RAGService_calls_initialized n _ r s1); [exact Hinst | exact Hlook | exact Hflag].
    + exists s1. split; [exact Hlook | exact Hflag].
Qed.

End SingletonFacts.

Lemma C10_singleton_survives_construction_witness :
  match on_object (fst Sim.the_object) (initialize Sim.env)
                  (snd Sim.the_object) Sim.first_run with
  | Some o =>
      res o = inr (mkInitResult "success"
                     "RAG service initialized successfully" (Some 1)) /\
      RAGService_calls 3 (self_of o) =
        (repeat (fst Sim.the_object) 3, self_of o)
  | None => False
  end.
Proof.
  destruct (on_object (fst Sim.the_object) (initialize Sim.env)
                      (snd Sim.the_object) Sim.first_run) as [o |] eqn:Ho.
  - assert (Hres : res o = inr (mkInitResult "success"
                       "RAG service initialized successfully" (Some 1))).
    { pose proof Ho as Ho'. vm_compute in Ho'. injection Ho' as <-. reflexivity. }
    split; [exact Hres |].
    apply (proj2 (C10_singleton_survives_construction Sim.env no_objects 3)
                 (fst Sim.the_object) (snd Sim.the_object) Sim.first_run o _
                 (surjective_pairing _) Ho Hres).
  - vm_compute in Ho. discriminate Ho.
Defined.

(** ** What does hold of the order of the pipeline *)

(** The template has exactly the two fields [context] and [question]. *)
Lemma template_fields :
  input_variables (from_template template) = ["context"; "question"].
Proof. rewrite from_template_template. reflexivity. Qed.

(** Formatting the template puts the context and the question between the
    fixed pieces of text, and cannot fail. *)
Lemma template_formatted (context q : string) :
  format_pieces (from_template template)
                [("context", context); ("question", q)] =
  inr (("Answer the question based on the following context from Dr. B.R. Ambedkar's speech:"
        ++ LF ++ LF ++ "Context: ")
       ++ context ++ (LF ++ LF ++ "Question: ") ++ q
       ++ (LF ++ LF ++ "Answer: ") ++ "").
Proof. rewrite from_template_template. reflexivity. Qed.

Section PipelineFacts.
Context {W Emb VS L : Type} (env : Env W Emb VS L).
Local Abbreviation Svc := (Service Emb VS L).

(** A first successful [initialize] leaves a retriever with k = 3 on the
    vector store, and a chain made of that retriever, the template and the
    model. *)
Lemma initialize_builds_chain (s : Svc) (w : W) (r : InitResult) :
  initialized s = false ->
  res (initialize env s w) = inr r ->
  exists vs l,
    vectorstore (self_of (initialize env s w)) = Some vs /\
    retriever (self_of (initialize env s w)) = Some (mkRetriever vs 3) /\
    qa_chain (self_of (initialize env s w)) =
      Some (mkChain (mkRetriever vs 3) (from_template template) l).
Proof.
  intros Hi. unfold_service. unfold_monad. rewrite Hi.
  run_all; intros Hr; try discriminate; eauto.
Qed.

(** The chain retrieves, then generates, and returns the output of the
    model as it is. *)
Lemma invoke_chain_steps (c : Chain VS L) (q out : string) (s : Svc) (w : W) :
  res (invoke_chain env c q s w) = inr out ->
  exists docs w1 text w2,
    retriever_invoke env (retriever_store (chain_retriever c))
                     (retriever_k (chain_retriever c)) q w = (inr docs, w1) /\
    format_pieces (chain_prompt c)
                  [("context", format_docs docs); ("question", q)] = inr text /\
    llm_invoke env (chain_llm c) [HumanMessage text] w1 = (inr out, w2) /\
    events (invoke_chain env c q s w) =
      [EvRetrieve (retriever_k (chain_retriever c)) q;
       EvGenerate [HumanMessage text]].
Proof.
  unfold_service. unfold_monad.
  run_all; intros Hr; try discriminate.
  injection Hr as <-. eauto 10.
Qed.

(** The CLI's [ask] retrieves twice as well: once for the documents it
    returns, once inside the chain. *)
Lemma cli_ask_retrieves_twice (q : string) (a : AmbedkarQA VS L) (w : W)
  (r : CliResult) :
  res (ask env q a w) = inr r ->
  count_events is_retrieve (events (ask env q a w)) = 2.
Proof.
  unfold ask. unfold_service. unfold_monad.
  destruct (cli_qa_chain a); run_step; [| discriminate].
  destruct (cli_retriever a); run_all; intros Hr; try discriminate; reflexivity.
Qed.

End PipelineFacts.

(** * Further properties of the code *)

(** ** [RAGService.initialize] *)

Section MoreInitialize.
Context {W Emb VS L : Type} (env : Env W Emb VS L).
Local Abbreviation Svc := (Service Emb VS L).

(** Without the speech file, [initialize] raises [FileNotFoundError] naming
    the path after two log records and nothing else: no library is called,
    and neither the service nor the outside world changes. *)
Theorem initialize_without_speech_file (s : Svc) (w : W) :
  initialized s = false ->
  path_exists env (SPEECH_FILE env) w = false ->
  initialize env s w =
  mkOut (inl (FileNotFoundError ("Speech file not found at " ++ SPEECH_FILE env)))
        s w
        [EvLog INFO "Initializing RAG service...";
         EvLog ERROR ("Failed to initialize RAG service: "
                      ++ "Speech file not found at " ++ SPEECH_FILE env)].
Proof.
  intros Hi Hs. unfold_service. unfold_monad. rewrite Hi. run_step.
  rewrite Hs. reflexivity.
Qed.

(** A call of [initialize] that succeeds on a service not yet initialized
    has gone, in this order and each in the world the previous one left,
    through: loading the speech file, splitting it, creating the embedding
    model, opening the index directory if it exists or else building the
    index from the chunks, and creating the model.  Its result counts the
    chunks the splitter gave, and the service it leaves is made of the
    values these calls returned, with a retriever for 3 chunks. *)
Theorem initialize_success_steps (s : Svc) (w : W) (r : InitResult) :
  initialized s = false ->
  res (initialize env s w) = inr r ->
  exists documents w1 texts w2 emb w3 vs w4 l w5,
    path_exists env (SPEECH_FILE env) w = true /\
    TextLoader_load env (SPEECH_FILE env) w = (inr documents, w1) /\
    split_documents env 200 50 ". " documents w1 = (inr texts, w2) /\
    HuggingFaceEmbeddings env embedding_model w2 = (inr emb, w3) /\
    (if path_exists env (CHROMA_DB_DIR env) w3
     then Chroma_open env (CHROMA_DB_DIR env) (Some emb) w3
     else Chroma_from_documents env texts (Some emb) (CHROMA_DB_DIR env) w3)
      = (inr vs, w4) /\
    OllamaLLM env ollama_config w4 = (inr l, w5) /\
    r = mkInitResult "success" "RAG service initialized successfully"
                     (Some (length texts)) /\
    world_of (initialize env s w) = w5 /\
    self_of (initialize env s w) =
      mkService true (Some vs)
                (Some (mkChain (mkRetriever vs 3) (from_template template) l))
                (Some emb) (Some l) (Some (mkRetriever vs 3))
                (Some (from_template template)) /\
    events (initialize env s w) =
      [EvLog INFO "Initializing RAG service...";
       EvLog INFO ("Loading speech from " ++ SPEECH_FILE env);
       EvLoad (SPEECH_FILE env);
       EvLog INFO "Splitting text into chunks";
       EvSplit 200 50 ". ";
       EvLog INFO "Loading HuggingFace embeddings";
       EvEmbeddings embedding_model;
       EvLog INFO "Setting up ChromaDB vector store";
       (if path_exists env (CHROMA_DB_DIR env) w3
        then EvChromaOpen (CHROMA_DB_DIR env)
        else EvChromaFromDocuments texts (CHROMA_DB_DIR env));
       EvLog INFO "Initializing Ollama with Mistral";
       EvOllama ollama_config;
       EvLog INFO "Creating RAG chain";
       EvLog INFO "RAG service initialized successfully"].
Proof.
  intros Hi. unfold_service. unfold_monad. rewrite Hi. run_step.
  destruct (path_exists env (SPEECH_FILE env) w) eqn:Hs; run_step;
    [| discriminate].
  destruct (TextLoader_load env (SPEECH_FILE env) w)
    as [[e | documents] w1] eqn:H1; run_step; [discriminate |].
  destruct (split_documents env 200 50 ". " documents w1)
    as [[e | texts] w2] eqn:H2; run_step; [discriminate |].
  destruct (HuggingFaceEmbeddings env embedding_model w2)
    as [[e | emb] w3] eqn:H3; run_step; [discriminate |].
  destruct (path_exists env (CHROMA_DB_DIR env) w3) eqn:Hc; run_step.
  - destruct (Chroma_open env (CHROMA_DB_DIR env) (Some emb) w3)
      as [[e | vs] w4] eqn:H4; run_step; [discriminate |].
    destruct (OllamaLLM env ollama_config w4) as [[e | l] w5] eqn:H5;
      run_step; [discriminate |].
    intros Hr. injection Hr as <-.
    exists documents, w1, texts, w2, emb, w3, vs, w4, l, w5.
    rewrite Hc. repeat (split; [reflexivity || assumption |]). reflexivity.
  - destruct (Chroma_from_documents env texts (Some emb) (CHROMA_DB_DIR env) w3)
      as [[e | vs] w4] eqn:H4; run_step; [discriminate |].
    destruct (OllamaLLM env ollama_config w4) as [[e | l] w5] eqn:H5;
      run_step; [discriminate |].
    intros Hr. injection Hr as <-.
    exists documents, w1, texts, w2, emb, w3, vs, w4, l, w5.
    rewrite Hc. repeat (split; [reflexivity || assumption |]). reflexivity.
Qed.

(** [initialize] does not undo what it has done when a late step raises:
    if the vector store step went through and creating the model raises,
    the call raises that exception with the flag still [False], but the
    embedding model and the vector store stay assigned, and when the index
    directory did not exist the index has been built. *)
Theorem initialize_failure_keeps_partial_state
  (s : Svc) (w : W) (texts : list Document) (vs : VS) (e : PyExc) :
  initialized s = false ->
  res (init_load env s w) = inr texts ->
  fst (if path_exists env (CHROMA_DB_DIR env) (world_of (init_load env s w))
       then Chroma_open env (CHROMA_DB_DIR env)
              (embeddings (self_of (init_load env s w)))
              (world_of (init_load env s w))
       else Chroma_from_documents env texts
              (embeddings (self_of (init_load env s w)))
              (CHROMA_DB_DIR env) (world_of (init_load env s w))) = inr vs ->
  fst (OllamaLLM env ollama_config
         (snd (if path_exists env (CHROMA_DB_DIR env)
                    (world_of (init_load env s w))
               then Chroma_open env (CHROMA_DB_DIR env)
                      (embeddings (self_of (init_load env s w)))
                      (world_of (init_load env s w))
               else Chroma_from_documents env texts
                      (embeddings (self_of (init_load env s w)))
                      (CHROMA_DB_DIR env) (world_of (init_load env s w)))))
    = inl e ->
  res (initialize env s w) = inl e /\
  initialized (self_of (initialize env s w)) = false /\
  vectorstore (self_of (initialize env s w)) = Some vs /\
  embeddings (self_of (initialize env s w)) =
    embeddings (self_of (init_load env s w)) /\
  qa_chain (self_of (initialize env s w)) = qa_chain s /\
  (path_exists env (CHROMA_DB_DIR env) (world_of (init_load env s w)) = false ->
   count_events is_build (events (initialize env s w)) = 1).
Proof.
  intros Hi Hload.
  unfold_service. unfold_monad. rewrite Hi in *.
  repeat (run_step; try discriminate;
          try match goal with
              | H : inr _ = inr texts |- _ => injection H as <-
              end;
          try split_next);
    intros Hvs He; try discriminate;
    injection Hvs as <-; injection He as <-;
    repeat split; try reflexivity; try assumption; intros; discriminate.
Qed.

(** What a call of [initialize] on a service that is not initialized does
    (result, world, effects) does not depend on the attributes the service
    holds, and when it succeeds it assigns every attribute: the service it
    leaves is the same whatever an earlier, failed attempt had left. *)
Theorem initialize_ignores_leftovers (s1 s2 : Svc) (w : W) :
  initialized s1 = false ->
  initialized s2 = false ->
  res (initialize env s1 w) = res (initialize env s2 w) /\
  world_of (initialize env s1 w) = world_of (initialize env s2 w) /\
  events (initialize env s1 w) = events (initialize env s2 w) /\
  (forall r, res (initialize env s1 w) = inr r ->
             self_of (initialize env s1 w) = self_of (initialize env s2 w)).
Proof.
  intros H1 H2. unfold_service. unfold_monad. rewrite H1, H2.
  run_all; repeat split; try reflexivity; intros; discriminate.
Qed.

End MoreInitialize.

Lemma initialize_without_speech_file_witness :
  initialized Sim.fresh_service = false /\
  path_exists Sim.env (SPEECH_FILE Sim.env) Sim.nothing = false /\
  res (initialize Sim.env Sim.fresh_service Sim.nothing) =
    inl (FileNotFoundError ("Speech file not found at " ++ SPEECH_FILE Sim.env)).
Proof.
  split; [reflexivity |]. split; [reflexivity |].
  rewrite (initialize_without_speech_file Sim.env Sim.fresh_service Sim.nothing
             eq_refl eq_refl).
  reflexivity.
Defined.

Lemma initialize_success_steps_witness :
  initialized Sim.fresh_service = false /\
  res (initialize Sim.env Sim.fresh_service Sim.first_run) =
    inr (mkInitResult "success" "RAG service initialized successfully" (Some 1)) /\
  exists documents w1 texts w2,
    TextLoader_load Sim.env (SPEECH_FILE Sim.env) Sim.first_run
      = (inr documents, w1) /\
    split_documents Sim.env 200 50 ". " documents w1 = (inr texts, w2).
Proof.
  split; [reflexivity |].
  assert (H : res (initialize Sim.env Sim.fresh_service Sim.first_run) =
              inr (mkInitResult "success"
                     "RAG service initialized successfully" (Some 1)))
    by (vm_compute; reflexivity).
  split; [exact H |].
  destruct (initialize_success_steps Sim.env Sim.fresh_service Sim.first_run _
              eq_refl H)
    as (documents & w1 & texts & w2 & emb & w3 & vs & w4 & l & w5
        & _ & Hl & Hsp & _).
  exists documents, w1, texts, w2. split; assumption.
Defined.

Lemma initialize_failure_keeps_partial_state_witness :
  res (initialize Sim2.env_no_model Sim.fresh_service Sim.first_run) =
    inl (LibraryError "ValidationError" "model settings refused") /\
  vectorstore (self_of (initialize Sim2.env_no_model Sim.fresh_service
                          Sim.first_run)) = Some "/app/chroma_db".
Proof.
  pose proof (initialize_failure_keeps_partial_state Sim2.env_no_model
                Sim.fresh_service Sim.first_run [Sim.speech_chunk]
                "/app/chroma_db"
                (LibraryError "ValidationError" "model settings refused")
                eq_refl) as H.
  assert (H1 : res (init_load Sim2.env_no_model Sim.fresh_service Sim.first_run)
               = inr [Sim.speech_chunk]) by (vm_compute; reflexivity).
  specialize (H H1).
  assert (H2 : fst (if path_exists Sim2.env_no_model (CHROMA_DB_DIR Sim2.env_no_model)
                          (world_of (init_load Sim2.env_no_model Sim.fresh_service Sim.first_run))
                    then Chroma_open Sim2.env_no_model (CHROMA_DB_DIR Sim2.env_no_model)
                           (embeddings (self_of (init_load Sim2.env_no_model Sim.fresh_service Sim.first_run)))
                           (world_of (init_load Sim2.env_no_model Sim.fresh_service Sim.first_run))
                    else Chroma_from_documents Sim2.env_no_model [Sim.speech_chunk]
                           (embeddings (self_of (init_load Sim2.env_no_model Sim.fresh_service Sim.first_run)))
                           (CHROMA_DB_DIR Sim2.env_no_model)
                           (world_of (init_load Sim2.env_no_model Sim.fresh_service Sim.first_run)))
               = inr "/app/chroma_db") by (vm_compute; reflexivity).
  specialize (H H2).
  assert (H3 : fst (OllamaLLM Sim2.env_no_model ollama_config
                 (snd (if path_exists Sim2.env_no_model (CHROMA_DB_DIR Sim2.env_no_model)
                          (world_of (init_load Sim2.env_no_model Sim.fresh_service Sim.first_run))
                    then Chroma_open Sim2.env_no_model (CHROMA_DB_DIR Sim2.env_no_model)
                           (embeddings (self_of (init_load Sim2.env_no_model Sim.fresh_service Sim.first_run)))
                           (world_of (init_load Sim2.env_no_model Sim.fresh_service Sim.first_run))
                    else Chroma_from_documents Sim2.env_no_model [Sim.speech_chunk]
                           (embeddings (self_of (init_load Sim2.env_no_model Sim.fresh_service Sim.first_run)))
                           (CHROMA_DB_DIR Sim2.env_no_model)
                           (world_of (init_load Sim2.env_no_model Sim.fresh_service Sim.first_run)))))
               = inl (LibraryError "ValidationError" "model settings refused"))
    by (vm_compute; reflexivity).
  specialize (H H3).
  exact (conj (proj1 H) (proj1 (proj2 (proj2 H)))).
Defined.

Lemma initialize_ignores_leftovers_witness :
  initialized Sim.fresh_service = false /\
  initialized (self_of (initialize Sim2.env_no_model Sim.fresh_service
                          Sim.first_run)) = false /\
  res (initialize Sim.env Sim.fresh_service Sim.first_run) =
  res (initialize Sim.env
         (self_of (initialize Sim2.env_no_model Sim.fresh_service Sim.first_run))
         Sim.first_run).
Proof.
  split; [reflexivity |]. split; [vm_compute; reflexivity |].
  apply (initialize_ignores_leftovers Sim.env Sim.fresh_service
           (self_of (initialize Sim2.env_no_model Sim.fresh_service Sim.first_run))
           Sim.first_run).
  - reflexivity.
  - vm_compute. reflexivity.
Defined.

(** ** [RAGService.ask_question] and the endpoints *)

Section MoreAnswering.
Context {W Emb VS L : Type} (env : Env W Emb VS L).
Local Abbreviation Svc := (Service Emb VS L).

(** Whatever the service and the question, [ask_question] never loads,
    splits, embeds the document, opens or builds an index, or creates a
    model: it retrieves at most twice and generates at most once. *)
Theorem ask_question_only_retrieves_and_generates
  (q : string) (s : Svc) (w : W) :
  count_events is_setup_call (events (ask_question env q s w)) = 0 /\
  count_events is_retrieve (events (ask_question env q s w)) <= 2 /\
  count_events is_generate (events (ask_question env q s w)) <= 1.
Proof.
  unfold_service. unfold_monad.
  destruct (initialized s); run_step; [| cbn; lia].
  destruct (retriever s); run_all; try (cbn; lia);
    destruct (qa_chain s); run_all; cbn; lia.
Qed.

(** On a service that [initialize] has set up, what [ask_question] does is
    fixed by three library calls, in this order: a retrieval of 3 chunks,
    a second retrieval of 3 chunks in the world the first one left, and the
    model called on the template filled with the texts of the second
    retrieval and the question.  It raises exactly when one of them raises,
    with that exception; otherwise it returns the question, the output of
    the model as it is, the documents of the first retrieval as sources,
    and their number. *)
Theorem ask_question_after_initialize
  (s : Svc) (w : W) (r0 : InitResult) (q : string) (w1 : W) :
  initialized s = false ->
  res (initialize env s w) = inr r0 ->
  exists vs l,
    vectorstore (self_of (initialize env s w)) = Some vs /\
    qa_chain (self_of (initialize env s w)) =
      Some (mkChain (mkRetriever vs 3) (from_template template) l) /\
    res (ask_question env q (self_of (initialize env s w)) w1) =
    match retriever_invoke env vs 3 q w1 with
    | (inl e, _) => inl e
    | (inr docs1, w2) =>
        match retriever_invoke env vs 3 q w2 with
        | (inl e, _) => inl e
        | (inr docs2, w3) =>
            match llm_invoke env l
                    [HumanMessage
                       (("Answer the question based on the following context from Dr. B.R. Ambedkar's speech:"
                         ++ LF ++ LF ++ "Context: ")
                        ++ format_docs docs2 ++ (LF ++ LF ++ "Question: ") ++ q
                        ++ (LF ++ LF ++ "Answer: ") ++ "")] w3 with
            | (inl e, _) => inl e
            | (inr out, _) =>
                inr (mkAskResult q out (map to_source docs1) (length docs1))
            end
        end
    end.
Proof.
  intros Hi Hok.
  destruct (initialize_builds_chain env s w r0 Hi Hok) as (vs & l & Hv & Hr & Hc).
  pose proof (initialize_returns_initialized env s w r0 Hok) as Hflag.
  exists vs, l. split; [exact Hv |]. split; [exact Hc |].
  remember (self_of (initialize env s w)) as s1 eqn:Es1. clear Es1 Hok Hi.
  unfold ask_question, ask_question_body, ask_question_failed,
    invoke_chain, invoke_retriever.
  unfold_monad. rewrite Hflag. run_step. rewrite Hr. run_step.
  destruct (retriever_invoke env vs 3 q w1) as [[e | docs1] w2]; run_step;
    [reflexivity |].
  rewrite Hc. run_step.
  destruct (retriever_invoke env vs 3 q w2) as [[e | docs2] w3]; run_step;
    [reflexivity |].
  rewrite template_formatted. run_step.
  destruct (llm_invoke env l _ w3) as [[e | out] w4]; run_step;
    [reflexivity |].
  rewrite length_map. reflexivity.
Qed.

(** The init endpoint never lets an exception through: it returns the
    result of [initialize] as the body, or, when [initialize] raises, logs
    the error once more and answers with status 500 and the text of the
    exception.  The service and the world are left as [initialize] left
    them. *)
Theorem initialize_rag_outcome (s : Svc) (w : W) :
  self_of (initialize_rag env s w) = self_of (initialize env s w) /\
  world_of (initialize_rag env s w) = world_of (initialize env s w) /\
  match res (initialize env s w) with
  | inr r =>
      res (initialize_rag env s w) = inr (Body r) /\
      events (initialize_rag env s w) = events (initialize env s w)
  | inl e =>
      res (initialize_rag env s w) = inr (HTTPException 500 (exc_str e)) /\
      events (initialize_rag env s w) =
        (events (initialize env s w) ++
         [EvLog ERROR ("Error initializing RAG service: " ++ exc_str e)])%list
  end.
Proof.
  unfold initialize_rag, try_except, bind, ret, logger_error, emit.
  destruct (initialize env s w) as [[e | r] s1 w1 tr]; run_step.
  - repeat split; reflexivity.
  - rewrite app_nil_r. repeat split; reflexivity.
Qed.

Lemma ask_endpoint_when_initialized (q : string) (s : Svc) (w : W) :
  initialized s = true ->
  self_of (ask_endpoint env q s w) = s /\
  world_of (ask_endpoint env q s w) = world_of (ask_question env q s w) /\
  count_events is_init_start (events (ask_endpoint env q s w)) = 0 /\
  match res (ask_question env q s w) with
  | inr r =>
      res (ask_endpoint env q s w) = inr (Body r) /\
      events (ask_endpoint env q s w) = events (ask_question env q s w)
  | inl e =>
      if is_RuntimeError e
      then
        res (ask_endpoint env q s w) =
          inr (HTTPException 503 "RAG service not initialized") /\
        events (ask_endpoint env q s w) = events (ask_question env q s w)
      else
        res (ask_endpoint env q s w) = inr (HTTPException 500 (exc_str e)) /\
        events (ask_endpoint env q s w) =
          (events (ask_question env q s w) ++
           [EvLog ERROR ("Error processing question: " ++ exc_str e)])%list
  end.
Proof.
  intros Hi.
  pose proof (ask_question_self env q s w) as Hself.
  pose proof (ask_question_no_init_start env q s w) as Hnone.
  unfold ask_endpoint, try_except, bind, get_self, ret. rewrite Hi. cbn [negb].
  destruct (ask_question env q s w) as [[e | r] s1 w1 tr]; run_step.
  - unfold logger_error, emit. subst s1.
    destruct e; run_step; rewrite ?count_events_app, ?Hnone, ?app_nil_r;
      repeat split; reflexivity.
  - subst s1. rewrite app_nil_r. repeat split; [exact Hnone].
Qed.

(** The ask endpoint on an initialized service: no initialization is run,
    the service is left as it is and the world as [ask_question] left it.
    The body is the result of [ask_question].  When [ask_question] raises
    an instance of [RuntimeError] or of one of its subclasses, whatever its
    message, the answer is status 503 with the fixed detail "RAG service
    not initialized" and nothing is logged by the handler; any other
    exception is logged by the handler and gives status 500 with the text
    of the exception. *)
Theorem ask_endpoint_on_initialized_service (q : string) (s : Svc) (w : W) :
  initialized s = true ->
  self_of (ask_endpoint env q s w) = s /\
  world_of (ask_endpoint env q s w) = world_of (ask_question env q s w) /\
  count_events is_init_start (events (ask_endpoint env q s w)) = 0 /\
  match res (ask_question env q s w) with
  | inr r =>
      res (ask_endpoint env q s w) = inr (Body r) /\
      events (ask_endpoint env q s w) = events (ask_question env q s w)
  | inl e =>
      if is_RuntimeError e
      then
        res (ask_endpoint env q s w) =
          inr (HTTPException 503 "RAG service not initialized") /\
        events (ask_endpoint env q s w) = events (ask_question env q s w)
      else
        res (ask_endpoint env q s w) = inr (HTTPException 500 (exc_str e)) /\
        events (ask_endpoint env q s w) =
          (events (ask_question env q s w) ++
           [EvLog ERROR ("Error processing question: " ++ exc_str e)])%list
  end.
Proof. exact (ask_endpoint_when_initialized q s w). Qed.

(** When the initialization started by a first ask request succeeds, the
    service is left initialized whether or not the question itself was
    answered, and no later ask request, whatever the world is by then,
    runs an initialization again. *)
Theorem ask_endpoint_initializes_once
  (q1 q2 : string) (s : Svc) (w w' : W) (ir : InitResult) :
  initialized s = false ->
  res (initialize env s w) = inr ir ->
  self_of (ask_endpoint env q1 s w) = self_of (initialize env s w) /\
  initialized (self_of (ask_endpoint env q1 s w)) = true /\
  count_events is_init_start
    (events (ask_endpoint env q2 (self_of (ask_endpoint env q1 s w)) w')) = 0.
Proof.
  intros Hi Hok.
  pose proof (initialize_returns_initialized env s w ir Hok) as Hflag.
  assert (Hself : self_of (ask_endpoint env q1 s w) = self_of (initialize env s w)).
  { unfold ask_endpoint, try_except, bind, get_self, ret. rewrite Hi. cbn [negb].
    destruct (initialize env s w) as [[e | r] s1 w1 tr]; run_step;
      [discriminate |].
    pose proof (ask_question_self env q1 s1 w1) as Hs.
    destruct (ask_question env q1 s1 w1) as [[e | r'] s2 w2 tr2]; run_step.
    - unfold logger_error, emit. destruct e; run_step; exact Hs.
    - exact Hs. }
  rewrite Hself. split; [reflexivity |]. split; [exact Hflag |].
  exact (proj1 (proj2 (proj2 (ask_endpoint_when_initialized q2 _ w' Hflag)))).
Qed.

End MoreAnswering.

Lemma ask_question_after_initialize_witness :
  initialized Sim.fresh_service = false /\
  res (ask_question Sim.env "What is caste?" Sim.ready_service Sim.model_down) =
    inl (LibraryError "ConnectError" "Connection refused").
Proof.
  split; [reflexivity |].
  destruct (ask_question_after_initialize Sim.env Sim.fresh_service
              Sim.first_run
              (mkInitResult "success" "RAG service initialized successfully" (Some 1))
              "What is caste?" Sim.model_down eq_refl)
    as (vs & l & Hv & Hc & Hres).
  - vm_compute. reflexivity.
  - vm_compute in Hv. injection Hv as <-.
    vm_compute in Hc. injection Hc as <-.
    unfold Sim.ready_service, Sim.ready. rewrite Hres.
    vm_compute. reflexivity.
Defined.

Lemma ask_endpoint_on_initialized_service_witness :
  initialized Sim.ready_service = true /\
  res (ask_endpoint Sim.env "What is caste?" Sim.ready_service
         Sim2.model_unimplemented) =
    inr (HTTPException 503 "RAG service not initialized") /\
  res (ask_endpoint Sim.env "What is caste?" Sim.ready_service Sim.model_down) =
    inr (HTTPException 500 "Connection refused").
Proof.
  assert (Hi : initialized Sim.ready_service = true) by (vm_compute; reflexivity).
  split; [exact Hi |].
  pose proof (ask_endpoint_on_initialized_service Sim.env "What is caste?"
                Sim.ready_service Sim2.model_unimplemented Hi)
    as (_ & _ & _ & H1).
  pose proof (ask_endpoint_on_initialized_service Sim.env "What is caste?"
                Sim.ready_service Sim.model_down Hi)
    as (_ & _ & _ & H2).
  assert (E1 : res (ask_question Sim.env "What is caste?" Sim.ready_service
                      Sim2.model_unimplemented) =
               inl (RuntimeErrorSubclass "NotImplementedError"
                      "streaming is not supported"))
    by (vm_compute; reflexivity).
  assert (E2 : res (ask_question Sim.env "What is caste?" Sim.ready_service
                      Sim.model_down) =
               inl (LibraryError "ConnectError" "Connection refused"))
    by (vm_compute; reflexivity).
  rewrite E1 in H1. rewrite E2 in H2.
  exact (conj (proj1 H1) (proj1 H2)).
Defined.

Lemma ask_endpoint_initializes_once_witness :
  initialized Sim.fresh_service = false /\
  count_events is_init_start
    (events (ask_endpoint Sim.env "And why?"
               (self_of (ask_endpoint Sim.env "What is caste?"
                           Sim.fresh_service Sim.first_run))
               Sim.model_down)) = 0.
Proof.
  split; [reflexivity |].
  apply (ask_endpoint_initializes_once Sim.env "What is caste?" "And why?"
           Sim.fresh_service Sim.first_run Sim.model_down
           (mkInitResult "success" "RAG service initialized successfully" (Some 1))).
  - reflexivity.
  - vm_compute. reflexivity.
Defined.

(** ** Any interleaving of callers of [initialize] *)

(** Case analysis on an attribute that may be missing or on a test. *)
Ltac split_local :=
  match goal with
  | |- context [match ?x with Some _ => _ | None => _ end] => destruct x
  | |- context [if ?b then _ else _] => destruct b
  end.

Ltac run_thread := repeat (run_step; try first [split_next | split_local]).

Section ThreadFacts.
Context {W Emb VS L : Type} (env : Env W Emb VS L).
Local Abbreviation Svc := (Service Emb VS L).
Local Abbreviation Pos := (Pc Emb VS L).

Lemma thread_step_returns (pc : Pos) (s : Svc) (w : W) :
  exists pc', res (thread_step env pc s w) = inr pc'.
Proof.
  destruct pc; unfold thread_step, guarded; unfold_monad; run_thread; eauto.
Qed.

Lemma thread_step_keeps_flag (pc : Pos) (s : Svc) (w : W) :
  initialized s = true ->
  initialized (self_of (thread_step env pc s w)) = true.
Proof.
  intros Hi.
  destruct pc; unfold thread_step, guarded; unfold_monad;
    run_step; try assumption; run_thread; try assumption; reflexivity.
Qed.

Lemma thread_step_builds (pc pc' : Pos) (s : Svc) (w : W) :
  res (thread_step env pc s w) = inr pc' ->
  count_events is_build (events (thread_step env pc s w)) +
  Nat.b2n (before_store pc') <=
  Nat.b2n (before_store pc).
Proof.
  destruct pc; unfold thread_step, guarded; unfold_monad; run_thread;
    intros H; injection H as <-; cbn; lia.
Qed.

Lemma before_store_insert (pcs : list Pos) (i : nat) (pc pc' : Pos) :
  pcs !! i = Some pc ->
  may_still_build (<[i := pc']> pcs) + Nat.b2n (before_store pc) =
  may_still_build pcs + Nat.b2n (before_store pc').
Proof.
  unfold may_still_build. revert i.
  induction pcs as [| x pcs IH]; intros i Hl; [discriminate |].
  destruct i as [| i].
  - cbn in Hl. injection Hl as ->. cbn [List.filter].
    change (<[0 := pc']> (pc :: pcs)) with (pc' :: pcs). cbn [List.filter].
    destruct (before_store pc), (before_store pc'); cbn [length Nat.b2n]; lia.
  - cbn in Hl. specialize (IH i Hl).
    change (<[S i := pc']> (x :: pcs)) with (x :: <[i := pc']> pcs).
    cbn [List.filter]. destruct (before_store x); cbn [length]; lia.
Qed.

Lemma thread_switch_keeps_flag (sys : Threads W Emb VS L) (i : nat) :
  initialized (object sys) = true ->
  initialized (object (thread_switch env sys i)) = true.
Proof.
  intros Hi. unfold thread_switch.
  destruct (positions sys !! i) as [pc |]; [| exact Hi].
  pose proof (thread_step_keeps_flag pc (object sys) (surroundings sys) Hi) as H.
  destruct (thread_step env pc (object sys) (surroundings sys))
    as [[e | pc'] s1 w1 tr]; [exact Hi | exact H].
Qed.

Lemma thread_switch_builds (sys : Threads W Emb VS L) (i : nat) :
  count_events is_build (effects (thread_switch env sys i)) +
  may_still_build (positions (thread_switch env sys i)) <=
  count_events is_build (effects sys) + may_still_build (positions sys).
Proof.
  unfold thread_switch.
  destruct (positions sys !! i) as [pc |] eqn:Hpc; [| lia].
  pose proof (thread_step_builds pc) as H.
  specialize (fun pc' => H pc' (object sys) (surroundings sys)).
  destruct (thread_step env pc (object sys) (surroundings sys))
    as [[e | pc'] s1 w1 tr]; [lia |].
  specialize (H pc' eq_refl). cbn [res events effects positions] in *.
  rewrite count_events_app.
  pose proof (before_store_insert (positions sys) i pc pc' Hpc). lia.
Qed.

Lemma interleave_builds (sched : list nat) (sys : Threads W Emb VS L) :
  count_events is_build (effects (interleave env sched sys)) +
  may_still_build (positions (interleave env sched sys)) <=
  count_events is_build (effects sys) + may_still_build (positions sys).
Proof.
  unfold interleave. revert sys.
  induction sched as [| i sched IH]; intros sys; [cbn [fold_left]; lia |].
  cbn [fold_left]. specialize (IH (thread_switch env sys i)).
  pose proof (thread_switch_builds sys i). lia.
Qed.

Lemma may_still_build_start (n : nat) :
  may_still_build (repeat (@AtFlagTest Emb VS L) n) = n.
Proof.
  unfold may_still_build. induction n as [| n IH]; [reflexivity |].
  cbn. rewrite IH. reflexivity.
Qed.

(** A caller that no other caller interrupts does, in its 28 steps or
    fewer, exactly what [initialize] does: same result, same service, same
    world, same effects in the same order. *)
Lemma run_alone_is_initialize (s : Svc) (w : W) :
  run_alone env 28 AtFlagTest s w =
    match initialize env s w with
    | mkOut r s1 w1 tr => mkOut (inr (Done r)) s1 w1 tr
    end.
Proof.
  unfold run_alone, thread_step, guarded.
  unfold_service. unfold_monad. run_thread; reflexivity.
Qed.

(** Under the scheduler, a caller that is given [n] steps in a row does
    what [run_alone] does. *)
Lemma interleave_alone (n i : nat) :
  forall (sys : Threads W Emb VS L) (pc : Pos),
    positions sys !! i = Some pc ->
    exists pc',
      res (run_alone env n pc (object sys) (surroundings sys)) = inr pc' /\
      interleave env (repeat i n) sys =
        mkThreads (<[i := pc']> (positions sys))
          (self_of (run_alone env n pc (object sys) (surroundings sys)))
          (world_of (run_alone env n pc (object sys) (surroundings sys)))
          (effects sys ++
           events (run_alone env n pc (object sys) (surroundings sys)))%list.
Proof.
  induction n as [| n IH]; intros sys pc Hpc.
  - exists pc. cbn [run_alone repeat]. unfold ret, interleave.
    cbn [fold_left res self_of world_of events].
    rewrite list_insert_id by exact Hpc. rewrite app_nil_r.
    destruct sys; split; reflexivity.
  - cbn [run_alone repeat]. unfold interleave, bind. cbn [fold_left].
    unfold thread_switch at 2. rewrite Hpc.
    destruct (thread_step_returns pc (object sys) (surroundings sys))
      as [pc1 H1].
    destruct (thread_step env pc (object sys) (surroundings sys))
      as [r s1 w1 tr]. cbn [res] in H1. subst r.
    assert (Hl : (<[i := pc1]> (positions sys)) !! i = Some pc1).
    { apply list_lookup_insert_eq. apply lookup_lt_Some with pc. exact Hpc. }
    destruct (IH (mkThreads (<[i := pc1]> (positions sys)) s1 w1
                            (effects sys ++ tr)%list) pc1 Hl)
      as (pc' & Hres & Hrun).
    cbn [positions object surroundings effects] in Hres, Hrun.
    unfold interleave in Hrun. rewrite Hrun.
    destruct (run_alone env n pc1 s1 w1) as [r2 s2 w2 tr2].
    cbn [res self_of world_of events] in *. subst r2.
    exists pc'. split; [reflexivity |].
    rewrite list_insert_insert_eq, <- app_assoc. reflexivity.
Qed.

(** One caller with nobody else running: the scheduler gives the run of
    [initialize]. *)
Lemma interleave_one_caller (s : Svc) (w : W) :
  interleave env (repeat 0 28) (threads_start 1 s w) =
    mkThreads [Done (res (initialize env s w))]
              (self_of (initialize env s w))
              (world_of (initialize env s w))
              (events (initialize env s w)).
Proof.
  destruct (interleave_alone 28 0 (threads_start 1 s w) AtFlagTest eq_refl)
    as (pc' & Hres & Hrun).
  rewrite Hrun. clear Hrun. revert Hres.
  unfold threads_start. cbn [positions object surroundings effects repeat].
  rewrite run_alone_is_initialize.
  destruct (initialize env s w) as [r s1 w1 tr].
  cbn [res self_of world_of events]. intros Hres. injection Hres as <-.
  reflexivity.
Qed.

(** Under every interleaving of the callers' single accesses, once the
    flag is set it stays set: no read, assignment, log record, file test or
    library call of any caller, wherever that caller stands in
    [initialize], ever resets it. *)
Theorem flag_stays_set_under_any_interleaving
  (sched : list nat) (sys : Threads W Emb VS L) :
  initialized (object sys) = true ->
  initialized (object (interleave env sched sys)) = true.
Proof.
  unfold interleave. revert sys.
  induction sched as [| i sched IH]; intros sys Hi; [exact Hi |].
  cbn [fold_left]. apply IH. apply thread_switch_keeps_flag. exact Hi.
Qed.

(** Under every interleaving of the single accesses of [n] callers that
    enter [initialize] on the same object, the index is built at most [n]
    times: a caller builds at most once, whatever the others do to the
    object and to the world in between. *)
Theorem builds_at_most_one_per_caller
  (sched : list nat) (n : nat) (s : Svc) (w : W) :
  count_events is_build
    (effects (interleave env sched (threads_start n s w))) <= n.
Proof.
  pose proof (interleave_builds sched (threads_start n s w)) as H.
  unfold threads_start in *. cbn [effects positions] in H.
  rewrite may_still_build_start in H. cbn in H. lia.
Qed.

End ThreadFacts.

Lemma flag_stays_set_under_any_interleaving_witness :
  initialized (object Sim2.second_caller_inside) = true /\
  positions Sim2.second_caller_inside !! 1 = Some AtLogLoading /\
  initialized (object (interleave Sim.env (repeat 1 26)
                         Sim2.second_caller_inside)) = true /\
  positions (interleave Sim.env (repeat 1 26) Sim2.second_caller_inside) !! 1 =
    Some (Done (inr (mkInitResult "success"
                       "RAG service initialized successfully" (Some 1)))).
Proof.
  assert (Hi : initialized (object Sim2.second_caller_inside) = true)
    by (vm_compute; reflexivity).
  split; [exact Hi |]. split; [vm_compute; reflexivity |].
  split; [| vm_compute; reflexivity].
  exact (flag_stays_set_under_any_interleaving Sim.env (repeat 1 26) _ Hi).
Defined.

(** ** The constructor on an object that is not initialized *)

Section MoreSingleton.
Context {Emb VS L : Type}.
Local Abbreviation Svc := (Service Emb VS L).
Local Abbreviation Cls := (ClassState Emb VS L).

(** The first constructor call makes a new object at a reference that was
    not in use, with the flag [False] and no attribute set, records it in
    the class attribute, and leaves every other object as it was. *)
Theorem first_construction_is_fresh (st : Cls) :
  RAGService_instance st = None ->
  heap st !! fst (RAGService_call st) = None /\
  heap (snd (RAGService_call st)) !! fst (RAGService_call st) =
    Some blank_service /\
  RAGService_instance (snd (RAGService_call st)) =
    Some (fst (RAGService_call st)) /\
  (forall r', r' <> fst (RAGService_call st) ->
              heap (snd (RAGService_call st)) !! r' = heap st !! r').
Proof.
  intros Hn. unfold RAGService_call, RAGService_new. rewrite Hn.
  cbn [fst snd]. unfold RAGService_init. cbn [heap RAGService_instance].
  rewrite lookup_insert_eq. cbn [negb initialized blank_service].
  cbn [fst snd heap RAGService_instance].
  assert (Hf : heap st !! fresh (dom (heap st)) = None).
  { apply not_elem_of_dom. apply is_fresh. }
  repeat split.
  - exact Hf.
  - rewrite insert_insert_eq. apply lookup_insert_eq.
  - intros r' Hne. rewrite insert_insert_eq.
    apply lookup_insert_ne. congruence.
Qed.

(** A constructor call on the existing object while it is not initialized
    returns the same reference and keeps the flag [False], but clears the
    vector store, the chain and the embedding model, so whatever a failed
    [initialize] had assigned to them is dropped; the model, the retriever
    and the prompt are not touched. *)
Theorem construction_clears_uninitialized (st : Cls) (r : ref) (s : Svc) :
  RAGService_instance st = Some r ->
  heap st !! r = Some s ->
  initialized s = false ->
  fst (RAGService_call st) = r /\
  heap (snd (RAGService_call st)) !! r =
    Some (mkService false None None None (llm s) (retriever s) (prompt s)) /\
  (forall r', r' <> r ->
              heap (snd (RAGService_call st)) !! r' = heap st !! r').
Proof.
  intros Hr Hs Hi. unfold RAGService_call, RAGService_new. rewrite Hr.
  cbn [fst snd]. unfold RAGService_init. rewrite Hs, Hi. cbn [negb heap].
  repeat split.
  - apply lookup_insert_eq.
  - intros r' Hne. apply lookup_insert_ne. congruence.
Qed.

End MoreSingleton.

Lemma first_construction_is_fresh_witness :
  RAGService_instance (@no_objects string string OllamaConfig) = None /\
  heap (snd (RAGService_call (@no_objects string string OllamaConfig)))
    !! fst (RAGService_call (@no_objects string string OllamaConfig)) =
  Some blank_service.
Proof.
  split; [reflexivity |].
  exact (proj1 (proj2 (first_construction_is_fresh no_objects eq_refl))).
Defined.

Lemma construction_clears_uninitialized_witness :
  RAGService_instance Sim2.after_failed_initialize = Some (fst Sim.the_object) /\
  heap Sim2.after_failed_initialize !! fst Sim.the_object =
    Some Sim2.half_built /\
  initialized Sim2.half_built = false /\
  vectorstore Sim2.half_built = Some "/app/chroma_db" /\
  embeddings Sim2.half_built = Some "sentence-transformers/all-MiniLM-L6-v2" /\
  fst (RAGService_call Sim2.after_failed_initialize) = fst Sim.the_object /\
  heap (snd (RAGService_call Sim2.after_failed_initialize))
    !! fst Sim.the_object = Some blank_service.
Proof.
  assert (H1 : RAGService_instance Sim2.after_failed_initialize =
               Some (fst Sim.the_object))
    by (vm_compute; reflexivity).
  assert (H2 : heap Sim2.after_failed_initialize !! fst Sim.the_object =
               Some Sim2.half_built)
    by (vm_compute; reflexivity).
  assert (H3 : initialized Sim2.half_built = false)
    by (vm_compute; reflexivity).
  split; [exact H1 |]. split; [exact H2 |]. split; [exact H3 |].
  split; [vm_compute; reflexivity |]. split; [vm_compute; reflexivity |].
  pose proof (construction_clears_uninitialized Sim2.after_failed_initialize
                (fst Sim.the_object) Sim2.half_built H1 H2 H3) as (Hr & Hh & _).
  split; [exact Hr |]. rewrite Hh. vm_compute. reflexivity.
Defined.

(** ** The CLI: [setup] and [ask] *)

Section MoreCLI.
Context {W Emb VS L : Type} (env : Env W Emb VS L).
Local Abbreviation QA := (AmbedkarQA VS L).

(** [ask] on an object whose chain is not set, as before [setup], raises
    [RuntimeError] with no effect. *)
Theorem ask_before_setup (q : string) (a : QA) (w : W) :
  cli_qa_chain a = None ->
  ask env q a w =
  mkOut (inl (RuntimeError "QA system not initialized. Call setup() first."))
        a w [].
Proof.
  intros H. unfold ask, bind, get_self. rewrite H. reflexivity.
Qed.

(** Without the speech file, [setup] raises [FileNotFoundError] naming the
    path after its first two lines of output: no library is called and the
    object is not changed. *)
Theorem setup_without_speech_file (a : QA) (w : W) :
  path_exists env (SPEECH_FILE env) w = false ->
  setup env a w =
  mkOut (inl (FileNotFoundError ("Speech file not found at " ++ SPEECH_FILE env)))
        a w
        [EvPrint "🔧 Setting up AmbedkarGPT...";
         EvPrint ("📄 Loading speech from " ++ SPEECH_FILE env ++ "...")].
Proof.
  intros Hs. unfold setup. unfold_monad. run_step. rewrite Hs. reflexivity.
Qed.

(** [setup] never opens a persisted index, whether the index directory
    exists or not: it builds at most once, and exactly once when it
    returns. *)
Theorem setup_always_rebuilds (a : QA) (w : W) :
  count_events is_open (events (setup env a w)) = 0 /\
  count_events is_build (events (setup env a w)) <= 1 /\
  match res (setup env a w) with
  | inr _ => count_events is_build (events (setup env a w)) = 1
  | inl _ => True
  end.
Proof.
  unfold setup. unfold_monad.
  run_all; cbn; repeat split; lia.
Qed.

(** A call of [setup] that returns has loaded the speech file, split it,
    created the embedding model, built the index from the chunks with the
    index directory as persist directory, and created the model, each in
    the world the previous one left; the object it leaves holds that vector
    store, that model, a retriever for 3 chunks and the chain made of
    them. *)
Theorem setup_success_steps (a : QA) (w : W) (u : unit) :
  res (setup env a w) = inr u ->
  exists documents w1 texts w2 emb w3 vs w4 l w5,
    path_exists env (SPEECH_FILE env) w = true /\
    TextLoader_load env (SPEECH_FILE env) w = (inr documents, w1) /\
    split_documents env 200 50 ". " documents w1 = (inr texts, w2) /\
    HuggingFaceEmbeddings env embedding_model w2 = (inr emb, w3) /\
    Chroma_from_documents env texts (Some emb) (CHROMA_DB_DIR env) w3
      = (inr vs, w4) /\
    OllamaLLM env cli_ollama_config w4 = (inr l, w5) /\
    world_of (setup env a w) = w5 /\
    self_of (setup env a w) =
      mkAmbedkarQA (Some vs)
        (Some (mkChain (mkRetriever vs 3) (from_template template) l))
        (Some l) (Some (mkRetriever vs 3)).
Proof.
  unfold setup. unfold_monad. run_step.
  destruct (path_exists env (SPEECH_FILE env) w) eqn:Hs; run_step;
    [| discriminate].
  destruct (TextLoader_load env (SPEECH_FILE env) w)
    as [[e | documents] w1] eqn:H1; run_step; [discriminate |].
  destruct (split_documents env 200 50 ". " documents w1)
    as [[e | texts] w2] eqn:H2; run_step; [discriminate |].
  destruct (HuggingFaceEmbeddings env embedding_model w2)
    as [[e | emb] w3] eqn:H3; run_step; [discriminate |].
  destruct (Chroma_from_documents env texts (Some emb) (CHROMA_DB_DIR env) w3)
    as [[e | vs] w4] eqn:H4; run_step; [discriminate |].
  destruct (OllamaLLM env cli_ollama_config w4) as [[e | l] w5] eqn:H5;
    run_step; [discriminate |].
  intros _. exists documents, w1, texts, w2, emb, w3, vs, w4, l, w5.
  repeat (split; [reflexivity || assumption |]). reflexivity.
Qed.

Lemma setup_builds_chain (a : QA) (w : W) (u : unit) :
  res (setup env a w) = inr u ->
  exists vs l,
    cli_retriever (self_of (setup env a w)) = Some (mkRetriever vs 3) /\
    cli_qa_chain (self_of (setup env a w)) =
      Some (mkChain (mkRetriever vs 3) (from_template template) l).
Proof.
  unfold setup. unfold_monad.
  run_all; intros Hr; try discriminate; eauto.
Qed.

(** After a [setup] that returned, what [ask] does is fixed by three
    library calls in order: a retrieval of 3 chunks, a second retrieval of
    3 chunks, and the model on the filled template.  It raises exactly when
    one of them raises, with that exception; otherwise it returns the
    output of the model and the documents of the first retrieval. *)
Theorem ask_after_setup (a : QA) (w : W) (u : unit) (q : string) (w1 : W) :
  res (setup env a w) = inr u ->
  exists vs l,
    cli_qa_chain (self_of (setup env a w)) =
      Some (mkChain (mkRetriever vs 3) (from_template template) l) /\
    res (ask env q (self_of (setup env a w)) w1) =
    match retriever_invoke env vs 3 q w1 with
    | (inl e, _) => inl e
    | (inr docs1, w2) =>
        match retriever_invoke env vs 3 q w2 with
        | (inl e, _) => inl e
        | (inr docs2, w3) =>
            match llm_invoke env l
                    [HumanMessage
                       (("Answer the question based on the following context from Dr. B.R. Ambedkar's speech:"
                         ++ LF ++ LF ++ "Context: ")
                        ++ format_docs docs2 ++ (LF ++ LF ++ "Question: ") ++ q
                        ++ (LF ++ LF ++ "Answer: ") ++ "")] w3 with
            | (inl e, _) => inl e
            | (inr out, _) => inr (mkCliResult out docs1)
            end
        end
    end.
Proof.
  intros Hok.
  destruct (setup_builds_chain a w u Hok) as (vs & l & Hr & Hc).
  exists vs, l. split; [exact Hc |].
  remember (self_of (setup env a w)) as a1 eqn:Ea1. clear Ea1 Hok.
  unfold ask, invoke_chain, invoke_retriever. unfold_monad.
  rewrite Hc. run_step. rewrite Hr. run_step.
  destruct (retriever_invoke env vs 3 q w1) as [[e | docs1] w2]; run_step;
    [reflexivity |].
  destruct (retriever_invoke env vs 3 q w2) as [[e | docs2] w3]; run_step;
    [reflexivity |].
  rewrite template_formatted. run_step.
  destruct (llm_invoke env l _ w3) as [[e | out] w4]; reflexivity.
Qed.

End MoreCLI.

Lemma ask_before_setup_witness :
  cli_qa_chain (@AmbedkarQA_init string OllamaConfig) = None /\
  res (ask Sim.env "What is caste?" AmbedkarQA_init Sim.first_run) =
    inl (RuntimeError "QA system not initialized. Call setup() first.").
Proof.
  split; [reflexivity |].
  rewrite (ask_before_setup Sim.env "What is caste?" AmbedkarQA_init
             Sim.first_run eq_refl).
  reflexivity.
Defined.

Lemma setup_without_speech_file_witness :
  path_exists Sim.env (SPEECH_FILE Sim.env) Sim.nothing = false /\
  self_of (setup Sim.env AmbedkarQA_init Sim.nothing) = AmbedkarQA_init.
Proof.
  split; [reflexivity |].
  rewrite (setup_without_speech_file Sim.env AmbedkarQA_init Sim.nothing eq_refl).
  reflexivity.
Defined.

Lemma setup_success_steps_witness :
  res (setup Sim.env AmbedkarQA_init Sim.first_run) = inr tt /\
  exists vs l,
    self_of (setup Sim.env AmbedkarQA_init Sim.first_run) =
      mkAmbedkarQA (Some vs)
        (Some (mkChain (mkRetriever vs 3) (from_template template) l))
        (Some l) (Some (mkRetriever vs 3)).
Proof.
  assert (H : res (setup Sim.env AmbedkarQA_init Sim.first_run) = inr tt)
    by (vm_compute; reflexivity).
  split; [exact H |].
  destruct (setup_success_steps Sim.env AmbedkarQA_init Sim.first_run tt H)
    as (documents & w1 & texts & w2 & emb & w3 & vs & w4 & l & w5
        & _ & _ & _ & _ & _ & _ & _ & Hs).
  exists vs, l. exact Hs.
Defined.

Lemma ask_after_setup_witness :
  res (setup Sim.env AmbedkarQA_init Sim.first_run) = inr tt /\
  res (ask Sim.env "What is caste?"
           (self_of (setup Sim.env AmbedkarQA_init Sim.first_run))
           Sim.model_down) =
    inl (LibraryError "ConnectError" "Connection refused").
Proof.
  assert (H : res (setup Sim.env AmbedkarQA_init Sim.first_run) = inr tt)
    by (vm_compute; reflexivity).
  split; [exact H |].
  destruct (ask_after_setup Sim.env AmbedkarQA_init Sim.first_run tt
              "What is caste?" Sim.model_down H) as (vs & l & Hc & Hres).
  vm_compute in Hc. injection Hc as <- <-.
  rewrite Hres. vm_compute. reflexivity.
Defined.

(** ** The CORS origins and the context separator *)

Lemma append_assoc (a b c : string) : (a ++ b) ++ c = a ++ (b ++ c).
Proof.
  induction a as [| x a IH]; [reflexivity |].
  change (String x ((a ++ b) ++ c) = String x (a ++ (b ++ c))).
  rewrite IH. reflexivity.
Qed.

Lemma append_nil_r (a : string) : a ++ "" = a.
Proof.
  induction a as [| x a IH]; [reflexivity |].
  change (String x (a ++ "") = String x a). rewrite IH. reflexivity.
Qed.

Lemma append_length (a b : string) :
  String.length (a ++ b) = String.length a + String.length b.
Proof.
  induction a as [| x a IH]; [reflexivity |].
  change (S (String.length (a ++ b)) = S (String.length a + String.length b)).
  rewrite IH. reflexivity.
Qed.

Lemma split_from_not_nil (sep : ascii) (s acc : string) :
  split_from sep s acc <> [].
Proof.
  revert acc. induction s as [| c s IH]; intros acc; cbn [split_from].
  - discriminate.
  - destruct (Ascii.eqb c sep); [discriminate | apply IH].
Qed.

Lemma join_cons (sep p : string) (rest : list string) :
  rest <> [] -> join sep (p :: rest) = p ++ sep ++ join sep rest.
Proof. destruct rest; [congruence | reflexivity]. Qed.

Lemma join_split_from (sep : ascii) (s acc : string) :
  join (String sep "") (split_from sep s acc) = acc ++ s.
Proof.
  revert acc. induction s as [| c s IH]; intros acc; cbn [split_from].
  - cbn [join]. rewrite append_nil_r. reflexivity.
  - destruct (Ascii.eqb c sep) eqn:Hc.
    + apply Ascii.eqb_eq in Hc. subst c.
      rewrite join_cons by apply split_from_not_nil.
      rewrite IH. reflexivity.
    + rewrite IH, append_assoc. reflexivity.
Qed.

Lemma split_from_length (sep : ascii) (s acc : string) :
  length (split_from sep s acc) =
  S (length (List.filter (Ascii.eqb sep) (list_ascii_of_string s))).
Proof.
  revert acc. induction s as [| c s IH]; intros acc;
    cbn [split_from list_ascii_of_string List.filter]; [reflexivity |].
  rewrite (Ascii.eqb_sym sep c).
  destruct (Ascii.eqb c sep); cbn [length]; rewrite IH; reflexivity.
Qed.

(** The list of allowed origins read from the environment: joining it
    again with commas gives back the text of the variable (or the star
    when it is not set); it is never empty, an unset or empty variable
    giving one entry; and it has one entry more than the text has
    commas. *)
Theorem allow_origins_round_trip (cors_origins : option string) :
  join "," (allow_origins cors_origins) =
    match cors_origins with Some v => v | None => "*" end /\
  allow_origins cors_origins <> [] /\
  length (allow_origins cors_origins) =
    S (length (List.filter (Ascii.eqb ",")
                 (list_ascii_of_string
                    (match cors_origins with Some v => v | None => "*" end)))) /\
  allow_origins None = ["*"] /\
  allow_origins (Some "") = [""].
Proof.
  unfold allow_origins, str_split. repeat split.
  - apply (join_split_from ","%char).
  - apply split_from_not_nil.
  - apply split_from_length.
Qed.

(** The context built from the retrieved chunks has the texts of the
    chunks in order with the four-character separator between two
    consecutive chunks only: nothing before the first or after the last,
    and the empty text for no chunk. *)
Theorem format_docs_length (docs : list Document) :
  String.length (format_docs docs) =
  list_sum (map (fun d => String.length (page_content d)) docs)
  + 4 * (length docs - 1).
Proof.
  unfold format_docs.
  induction docs as [| d docs IH]; [reflexivity |].
  destruct docs as [| d' docs].
  - cbn. lia.
  - change (join "\n\n" (map page_content (d :: d' :: docs)))
      with (page_content d ++ "\n\n" ++ join "\n\n" (map page_content (d' :: docs))).
    rewrite !append_length, IH. change (String.length "\n\n") with 4.
    unfold list_sum. cbn [map fold_right length]. lia.
Qed.

(** ** The CLI: [interactive_mode] and [main] *)

Section MoreInteractive.
Context {W Emb VS L : Type} (env : Env W Emb VS L) (con : Console W).
Local Abbreviation QA := (AmbedkarQA VS L).

(** One question inside [try ... except]: it never raises, it leaves the
    object as it is, and its library calls are at most two retrievals and
    one generation. *)
Lemma guarded_answer (q : string) (a : QA) (w : W) :
  res (try_except (answer_and_show env q) (show_error con) a w) = inr tt /\
  self_of (try_except (answer_and_show env q) (show_error con) a w) = a /\
  count_events is_setup_call
    (events (try_except (answer_and_show env q) (show_error con) a w)) = 0 /\
  count_events is_retrieve
    (events (try_except (answer_and_show env q) (show_error con) a w)) <= 2 /\
  count_events is_generate
    (events (try_except (answer_and_show env q) (show_error con) a w)) <= 1.
Proof.
  unfold answer_and_show, show_error, ask, invoke_chain, invoke_retriever.
  unfold_monad.
  destruct (cli_qa_chain a); run_step;
    [| repeat split; first [reflexivity | cbn; lia]].
  destruct (cli_retriever a); run_step;
    [| repeat split; first [reflexivity | cbn; lia]].
  run_all; cbn [source_documents result];
    try match goal with
        | |- context [match ?d with [] => _ | _ :: _ => _ end] =>
            is_var d; destruct d
        end;
    run_step; repeat split; first [reflexivity | cbn; lia].
Qed.

(** One turn of the loop. *)
Lemma question_loop_step (fuel : nat) (a : QA) (w : W) :
  question_loop env con (S fuel) a w =
  match console_input con (LF ++ "❓ Your question: ") w with
  | (KeyboardInterrupt, w') =>
      mkOut (inr true) a w'
            [EvPrint (LF ++ "❓ Your question: ");
             EvPrint (LF ++ LF ++ "👋 Interrupted. Exiting...")]
  | (InputError e, w') =>
      match question_loop env con fuel a w' with
      | mkOut r a1 w1 tr =>
          mkOut r a1 w1
                ([EvPrint (LF ++ "❓ Your question: ");
                  EvPrint (LF ++ "❌ Error: " ++ exc_str e);
                  EvPrint (traceback_text con e)] ++ tr)
      end
  | (Line raw, w') =>
      if is_exit_word (str_lower con (str_strip con raw)) then
        mkOut (inr true) a w'
              [EvPrint (LF ++ "❓ Your question: ");
               EvPrint (LF ++ "👋 Thank you for using AmbedkarGPT!")]
      else if String.eqb (str_strip con raw) "" then
        match question_loop env con fuel a w' with
        | mkOut r a1 w1 tr =>
            mkOut r a1 w1
                  ([EvPrint (LF ++ "❓ Your question: ");
                    EvPrint "⚠️  Please enter a question."] ++ tr)
        end
      else
        match try_except (answer_and_show env (str_strip con raw))
                         (show_error con) a w' with
        | mkOut (inl e) a1 w1 tr =>
            mkOut (inl e) a1 w1 (EvPrint (LF ++ "❓ Your question: ") :: tr)
        | mkOut (inr _) a1 w1 tr =>
            match question_loop env con fuel a1 w1 with
            | mkOut r a2 w2 tr' =>
                mkOut r a2 w2
                      (EvPrint (LF ++ "❓ Your question: ") :: tr ++ tr')
            end
        end
  end.
Proof.
  cbn [question_loop]. unfold read_input, show_error.
  unfold print, bind, ret, emit.
  destruct (console_input con _ w) as [[raw | | e] w']; cbn [app].
  - destruct (is_exit_word _); [reflexivity |].
    destruct (String.eqb _ ""); cbn [app].
    + destruct (question_loop env con fuel a w'); reflexivity.
    + destruct (try_except _ _ a w') as [[e | u] a1 w1 tr]; cbn [app];
        [reflexivity |].
      destruct (question_loop env con fuel a1 w1); reflexivity.
  - reflexivity.
  - destruct (question_loop env con fuel a w'); reflexivity.
Qed.

Lemma question_loop_safe (fuel : nat) :
  forall (a : QA) (w : W),
    (exists b, res (question_loop env con fuel a w) = inr b) /\
    self_of (question_loop env con fuel a w) = a.
Proof.
  induction fuel as [| fuel IH]; intros a w.
  - cbn. eauto.
  - rewrite question_loop_step.
    destruct (console_input con _ w) as [[raw | | e] w'].
    + destruct (is_exit_word _); [cbn; eauto |].
      destruct (String.eqb _ "").
      * specialize (IH a w').
        destruct (question_loop env con fuel a w'); exact IH.
      * pose proof (guarded_answer (str_strip con raw) a w') as (Hr & Hs & _).
        destruct (try_except _ _ a w') as [[e | u] a1 w1 tr];
          cbn [res self_of] in *; [discriminate |]. subst a1.
        specialize (IH a w1).
        destruct (question_loop env con fuel a w1); exact IH.
    + cbn. eauto.
    + specialize (IH a w').
      destruct (question_loop env con fuel a w'); exact IH.
Qed.

Lemma question_loop_calls (fuel : nat) :
  forall (a : QA) (w : W),
    count_events is_setup_call (events (question_loop env con fuel a w)) = 0 /\
    count_events is_retrieve (events (question_loop env con fuel a w))
      <= 2 * fuel /\
    count_events is_generate (events (question_loop env con fuel a w)) <= fuel.
Proof.
  induction fuel as [| fuel IH]; intros a w.
  - cbn. lia.
  - rewrite question_loop_step.
    destruct (console_input con _ w) as [[raw | | e] w'].
    + destruct (is_exit_word _); [cbn; lia |].
      destruct (String.eqb _ "").
      * specialize (IH a w').
        destruct (question_loop env con fuel a w') as [r a1 w1 tr].
        cbn [events] in *. rewrite !count_events_app. cbn. lia.
      * pose proof (guarded_answer (str_strip con raw) a w')
          as (Hr & Hs & H1 & H2 & H3).
        destruct (try_except _ _ a w') as [[e | u] a1 w1 tr];
          cbn [res self_of events] in *; [discriminate |].
        specialize (IH a1 w1).
        destruct (question_loop env con fuel a1 w1) as [r a2 w2 tr'].
        cbn [events] in *.
        change (EvPrint (LF ++ "❓ Your question: ") :: tr ++ tr')
          with ([EvPrint (LF ++ "❓ Your question: ")] ++ tr ++ tr')%list.
        rewrite !count_events_app. cbn. lia.
    + cbn. lia.
    + specialize (IH a w').
      destruct (question_loop env con fuel a w') as [r a1 w1 tr].
      cbn [events] in *. rewrite !count_events_app. cbn. lia.
Qed.

Lemma question_loop_ends_on_goodbye (fuel : nat) :
  forall (a : QA) (w : W),
    res (question_loop env con fuel a w) = inr true ->
    last (events (question_loop env con fuel a w)) =
      Some (EvPrint (LF ++ "👋 Thank you for using AmbedkarGPT!")) \/
    last (events (question_loop env con fuel a w)) =
      Some (EvPrint (LF ++ LF ++ "👋 Interrupted. Exiting...")).
Proof.
  induction fuel as [| fuel IH]; intros a w.
  - cbn. discriminate.
  - rewrite question_loop_step.
    destruct (console_input con _ w) as [[raw | | e] w'].
    + destruct (is_exit_word _); [intros _; left; reflexivity |].
      destruct (String.eqb _ "").
      * specialize (IH a w').
        destruct (question_loop env con fuel a w') as [r a1 w1 tr].
        cbn [res events] in *. intros H. rewrite last_app.
        destruct (IH H) as [-> | ->]; [left | right]; reflexivity.
      * destruct (try_except _ _ a w') as [[e | u] a1 w1 tr];
          [discriminate |].
        specialize (IH a1 w1).
        destruct (question_loop env con fuel a1 w1) as [r a2 w2 tr'].
        cbn [res events] in *. intros H.
        change (EvPrint (LF ++ "❓ Your question: ") :: tr ++ tr')
          with (([EvPrint (LF ++ "❓ Your question: ")] ++ tr) ++ tr')%list.
        rewrite last_app.
        destruct (IH H) as [-> | ->]; [left | right]; reflexivity.
    + intros _. right. reflexivity.
    + specialize (IH a w').
      destruct (question_loop env con fuel a w') as [r a1 w1 tr].
      cbn [res events] in *. intros H. rewrite last_app.
      destruct (IH H) as [-> | ->]; [left | right]; reflexivity.
Qed.

(** [interactive_mode] is the banner followed by the loop. *)
Lemma interactive_mode_banner (fuel : nat) (a : QA) (w : W) :
  interactive_mode env con fuel a w =
  match question_loop env con fuel a w with
  | mkOut r a1 w1 tr =>
      mkOut r a1 w1
            ([EvPrint (str_repeat "=" 60);
              EvPrint "🙏 Welcome to AmbedkarGPT!";
              EvPrint "Ask questions about Dr. B.R. Ambedkar's speech on caste.";
              EvPrint "Type 'exit' or 'quit' to end the session.";
              EvPrint (str_repeat "=" 60);
              EvPrint ""] ++ tr)
  end.
Proof.
  unfold interactive_mode, print, bind, emit.
  destruct (question_loop env con fuel a w); reflexivity.
Qed.

(** However many turns it is followed for, [interactive_mode] raises no
    exception, whatever is typed and whatever the libraries raise, and it
    leaves the object as [setup] made it. *)
Theorem interactive_mode_never_raises (fuel : nat) (a : QA) (w : W) :
  (exists b, res (interactive_mode env con fuel a w) = inr b) /\
  self_of (interactive_mode env con fuel a w) = a.
Proof.
  rewrite interactive_mode_banner.
  pose proof (question_loop_safe fuel a w) as H.
  destruct (question_loop env con fuel a w); exact H.
Qed.

(** In [fuel] turns of the loop, [interactive_mode] never loads, splits or
    embeds the document, never opens or builds an index and never creates
    a model; it retrieves at most twice and generates at most once per
    turn. *)
Theorem interactive_mode_library_calls (fuel : nat) (a : QA) (w : W) :
  count_events is_setup_call (events (interactive_mode env con fuel a w)) = 0 /\
  count_events is_retrieve (events (interactive_mode env con fuel a w))
    <= 2 * fuel /\
  count_events is_generate (events (interactive_mode env con fuel a w))
    <= fuel.
Proof.
  rewrite interactive_mode_banner.
  pose proof (question_loop_calls fuel a w) as H.
  destruct (question_loop env con fuel a w) as [r a1 w1 tr].
  cbn [events] in *. rewrite !count_events_app. cbn. lia.
Qed.

(** When the loop of [interactive_mode] has ended, the last thing printed
    is the goodbye for an exit word or the goodbye for an interrupt: these
    are the only two ways out. *)
Theorem interactive_mode_ends_on_goodbye (fuel : nat) (a : QA) (w : W) :
  res (interactive_mode env con fuel a w) = inr true ->
  last (events (interactive_mode env con fuel a w)) =
    Some (EvPrint (LF ++ "👋 Thank you for using AmbedkarGPT!")) \/
  last (events (interactive_mode env con fuel a w)) =
    Some (EvPrint (LF ++ LF ++ "👋 Interrupted. Exiting...")).
Proof.
  rewrite interactive_mode_banner.
  pose proof (question_loop_ends_on_goodbye fuel a w) as H.
  destruct (question_loop env con fuel a w) as [r a1 w1 tr].
  cbn [res events] in *. intros Hr. rewrite last_app.
  destruct (H Hr) as [-> | ->]; [left | right]; reflexivity.
Qed.

(** An exit word typed at the first prompt, once stripped and put in lower
    case, ends the session at once: goodbye is printed, no library is
    called, and what might be typed afterwards is not read. *)
Theorem interactive_mode_exit_word
  (fuel : nat) (a : QA) (w w' : W) (raw : string) :
  console_input con (LF ++ "❓ Your question: ") w = (Line raw, w') ->
  is_exit_word (str_lower con (str_strip con raw)) = true ->
  res (interactive_mode env con (S fuel) a w) = inr true /\
  world_of (interactive_mode env con (S fuel) a w) = w' /\
  count_events is_library_call
    (events (interactive_mode env con (S fuel) a w)) = 0 /\
  last (events (interactive_mode env con (S fuel) a w)) =
    Some (EvPrint (LF ++ "👋 Thank you for using AmbedkarGPT!")).
Proof.
  intros Hin Hex. rewrite interactive_mode_banner, question_loop_step, Hin, Hex.
  repeat split; reflexivity.
Qed.

(** When reading a line raises an exception other than an interrupt and
    leaves the world as it is, as at the end of the input, the loop never
    ends: after any number of turns it is still running, having printed
    the prompt, the error and the traceback once per turn and called no
    library. *)
Theorem interactive_mode_spins_at_end_of_input
  (fuel : nat) (a : QA) (w : W) (e : PyExc) :
  console_input con (LF ++ "❓ Your question: ") w = (InputError e, w) ->
  res (interactive_mode env con fuel a w) = inr false /\
  world_of (interactive_mode env con fuel a w) = w /\
  count_events is_library_call (events (interactive_mode env con fuel a w)) = 0 /\
  length (events (interactive_mode env con fuel a w)) = 6 + 3 * fuel.
Proof.
  intros Hin. rewrite interactive_mode_banner.
  assert (H : res (question_loop env con fuel a w) = inr false /\
              world_of (question_loop env con fuel a w) = w /\
              count_events is_library_call
                (events (question_loop env con fuel a w)) = 0 /\
              length (events (question_loop env con fuel a w)) = 3 * fuel).
  { induction fuel as [| fuel IH]; [cbn; repeat split; reflexivity |].
    rewrite question_loop_step, Hin.
    destruct (question_loop env con fuel a w) as [r a1 w1 tr].
    cbn [res world_of events] in *. destruct IH as (-> & -> & Hc & Hl).
    rewrite count_events_app, length_app, Hc, Hl. cbn. repeat split; lia. }
  destruct (question_loop env con fuel a w) as [r a1 w1 tr].
  cbn [res world_of events] in *. destruct H as (-> & -> & Hc & Hl).
  rewrite count_events_app, length_app, Hc, Hl. cbn. repeat split; lia.
Qed.

(** [main] and the exceptions of class [Exception], the ones its
    [except Exception] clause names.  When [setup] raises one, [main]
    leaves the object and the world as [setup] left them, prints the fatal
    error and the traceback after what [setup] printed and did, and exits
    with status 1; neither the banner nor a prompt is shown.  When [setup]
    returns, [main] goes on with [interactive_mode] on the object and in
    the world [setup] left, never exits with a status, and returns when the
    loop ends. *)
Theorem main_exit_status (fuel : nat) (w : W) :
  match setup env AmbedkarQA_init w with
  | mkOut (inl e) a1 w1 tr =>
      main env con fuel w =
      mkOut (inr (SysExit 1)) a1 w1
            (tr ++ [EvPrint (LF ++ "❌ Fatal error: " ++ exc_str e);
                    EvPrint (traceback_text con e)])
  | mkOut (inr _) a1 w1 tr =>
      exists ended,
        res (interactive_mode env con fuel a1 w1) = inr ended /\
        main env con fuel w =
        mkOut (inr (if ended then Returns else Running))
              (self_of (interactive_mode env con fuel a1 w1))
              (world_of (interactive_mode env con fuel a1 w1))
              (tr ++ events (interactive_mode env con fuel a1 w1))
  end.
Proof.
  unfold main, try_except, bind, ret, print, emit.
  destruct (setup env AmbedkarQA_init w) as [[e | u] a1 w1 tr].
  - reflexivity.
  - pose proof (interactive_mode_banner fuel a1 w1) as Hb.
    pose proof (question_loop_safe fuel a1 w1) as [[b Hr] _].
    destruct (interactive_mode env con fuel a1 w1) as [r a2 w2 tr2].
    destruct (question_loop env con fuel a1 w1) as [r' a3 w3 tr3].
    injection Hb as -> -> -> ->. cbn [res] in Hr. subst r'.
    exists b. cbn [res self_of world_of events]. split; [reflexivity |].
    rewrite !app_nil_r. reflexivity.
Qed.

End MoreInteractive.

Lemma interactive_mode_ends_on_goodbye_witness :
  res (interactive_mode Sim2.env Sim2.console 10
         (self_of (setup Sim2.env AmbedkarQA_init Sim2.session))
         (world_of (setup Sim2.env AmbedkarQA_init Sim2.session))) = inr true /\
  last (events (interactive_mode Sim2.env Sim2.console 10
         (self_of (setup Sim2.env AmbedkarQA_init Sim2.session))
         (world_of (setup Sim2.env AmbedkarQA_init Sim2.session)))) =
    Some (EvPrint (LF ++ "👋 Thank you for using AmbedkarGPT!")).
Proof.
  assert (H : res (interactive_mode Sim2.env Sim2.console 10
                     (self_of (setup Sim2.env AmbedkarQA_init Sim2.session))
                     (world_of (setup Sim2.env AmbedkarQA_init Sim2.session)))
              = inr true) by (vm_compute; reflexivity).
  split; [exact H |].
  destruct (interactive_mode_ends_on_goodbye Sim2.env Sim2.console 10 _ _ H)
    as [Hl | Hl]; [exact Hl |].
  vm_compute in Hl. discriminate Hl.
Defined.

Lemma interactive_mode_spins_at_end_of_input_witness :
  console_input Sim2.console (LF ++ "❓ Your question: ") Sim2.closed_input =
    (InputError Sim2.end_of_file, Sim2.closed_input) /\
  res (interactive_mode Sim2.env Sim2.console 1000 AmbedkarQA_init
         Sim2.closed_input) = inr false.
Proof.
  split; [reflexivity |].
  apply (interactive_mode_spins_at_end_of_input Sim2.env Sim2.console 1000
           AmbedkarQA_init Sim2.closed_input Sim2.end_of_file).
  reflexivity.
Defined.

Lemma interactive_mode_exit_word_witness :
  console_input Sim2.console (LF ++ "❓ Your question: ")
    (Sim.first_run, [Line " Quit "; Line "never read"]) =
    (Line " Quit ", (Sim.first_run, [Line "never read"])) /\
  is_exit_word (str_lower Sim2.console (str_strip Sim2.console " Quit ")) = true /\
  world_of (interactive_mode Sim2.env Sim2.console 5 AmbedkarQA_init
              (Sim.first_run, [Line " Quit "; Line "never read"])) =
    (Sim.first_run, [Line "never read"]).
Proof.
  split; [reflexivity |]. split; [vm_compute; reflexivity |].
  apply (interactive_mode_exit_word Sim2.env Sim2.console 4 AmbedkarQA_init
           (Sim.first_run, [Line " Quit "; Line "never read"])
           (Sim.first_run, [Line "never read"]) " Quit ").
  - reflexivity.
  - vm_compute. reflexivity.
Defined.

(** ** The status check records *)

Section MoreStatusChecks.
Context {W DT : Type} (db : Mongo W DT).
Local Abbreviation Doc := (list (string * Value DT)).

Lemma doc_get_set_other (k k' : string) (v : Value DT) (d : Doc) :
  k' <> k -> doc_get k' (doc_set k v d) = doc_get k' d.
Proof.
  intros Hne. induction d as [| [k0 v0] d IH]; cbn [doc_set doc_get].
  - destruct (String.eqb k' k) eqn:E; [| reflexivity].
    apply String.eqb_eq in E. congruence.
  - destruct (String.eqb k k0) eqn:E; cbn [doc_get].
    + apply String.eqb_eq in E. subst k0.
      destruct (String.eqb k' k) eqn:E'; [| reflexivity].
      apply String.eqb_eq in E'. congruence.
    + destruct (String.eqb k' k0); [reflexivity | exact IH].
Qed.

(** What [POST /status] stores, [GET /status] gives back as the object
    that [POST] returned.  A successful [POST] has inserted exactly the
    dump of the object it returns with the timestamp as ISO text; and when
    the collection gives records stored this way, and the ISO text of a
    timestamp parses back to it, [GET] returns the dumps of the objects,
    timestamps parsed. *)
Theorem status_checks_round_trip
  (name : string) (w : W) (c : StatusCheck DT)
  (checks : list (StatusCheck DT)) (v v' : W) :
  (forall t, fromisoformat db (isoformat db t) = inr t) ->
  fst (create_status_check db name w) = inr c ->
  find_to_list db 1000 v = (inr (map (stored_doc db) checks), v') ->
  client_name c = name /\
  (exists w2, insert_one db (stored_doc db c) w2
              = (inr tt, snd (create_status_check db name w))) /\
  get_status_checks db v = (inr (map model_dump checks), v').
Proof.
  intros Hiso Hc Hfind. split; [| split].
  - unfold create_status_check in Hc.
    destruct (uuid4_str db w) as [i w1]. destruct (utc_now db w1) as [t w2].
    destruct (insert_one db _ w2) as [[e | u] w3]; cbn [fst] in Hc;
      [discriminate |]. injection Hc as <-. reflexivity.
  - unfold create_status_check in *.
    destruct (uuid4_str db w) as [i w1]. destruct (utc_now db w1) as [t w2].
    destruct (insert_one db _ w2) as [[e | []] w3] eqn:Hins; cbn [fst snd] in *;
      [discriminate |]. injection Hc as <-. exists w2. exact Hins.
  - unfold get_status_checks. rewrite Hfind. f_equal.
    clear Hfind. induction checks as [| x checks IH]; [reflexivity |].
    cbn [map parse_timestamps].
    change (doc_get "timestamp" (stored_doc db x))
      with (Some (@VStr DT (isoformat db (timestamp x)))).
    cbv beta iota. rewrite Hiso, IH. reflexivity.
Qed.

(** One stored record without a timestamp makes the whole listing fail:
    [GET /status] raises and returns no record at all. *)
Theorem status_listing_fails_on_missing_timestamp
  (w w1 : W) (checks : list Doc) (bad : Doc) :
  find_to_list db 1000 w = (inr checks, w1) ->
  In bad checks ->
  doc_get "timestamp" bad = None ->
  exists e, get_status_checks db w = (inl e, w1).
Proof.
  intros Hfind Hin Hbad. unfold get_status_checks. rewrite Hfind.
  clear Hfind.
  assert (H : exists e, parse_timestamps db checks = inl e).
  { induction checks as [| x checks IH]; [destruct Hin |].
    cbn [parse_timestamps]. destruct Hin as [-> | Hin].
    - rewrite Hbad. eauto.
    - destruct (IH Hin) as [e He]. rewrite He.
      destruct (doc_get "timestamp" x) as [[s | t |] |]; eauto.
      destruct (fromisoformat db s); eauto. }
  destruct H as [e ->]. eauto.
Qed.

(** When [GET /status] returns, it returns as many records as the
    collection gave, in the same order, and each differs from the stored
    one at most in its timestamp: every other key has the value stored. *)
Theorem status_listing_changes_only_timestamps
  (w w1 : W) (checks result : list Doc) :
  find_to_list db 1000 w = (inr checks, w1) ->
  fst (get_status_checks db w) = inr result ->
  Forall2 (fun stored given =>
             forall k, k <> "timestamp" -> doc_get k given = doc_get k stored)
          checks result.
Proof.
  intros Hfind. unfold get_status_checks. rewrite Hfind. cbn [fst].
  clear Hfind. revert result. induction checks as [| x checks IH]; intros result.
  - cbn. intros H. injection H as <-. constructor.
  - cbn [parse_timestamps].
    destruct (doc_get "timestamp" x) as [[s | t |] |]; [| | | discriminate].
    + destruct (fromisoformat db s) as [e | t]; [discriminate |].
      destruct (parse_timestamps db checks) as [e | rest]; [discriminate |].
      intros H. injection H as <-. constructor; [| apply IH; reflexivity].
      intros k Hk. apply doc_get_set_other. exact Hk.
    + destruct (parse_timestamps db checks) as [e | rest]; [discriminate |].
      intros H. injection H as <-. constructor; [| apply IH; reflexivity].
      reflexivity.
    + destruct (parse_timestamps db checks) as [e | rest]; [discriminate |].
      intros H. injection H as <-. constructor; [| apply IH; reflexivity].
      reflexivity.
Qed.

End MoreStatusChecks.

Lemma status_checks_round_trip_witness :
  fst (create_status_check Sim3.db "laptop" Sim3.empty) =
    inr (mkStatusCheck "id-0" "laptop" "2024-01-01T00:00:01") /\
  get_status_checks Sim3.db (snd (create_status_check Sim3.db "laptop" Sim3.empty)) =
    (inr [model_dump (mkStatusCheck "id-0" "laptop" "2024-01-01T00:00:01")],
     snd (create_status_check Sim3.db "laptop" Sim3.empty)).
Proof.
  assert (H : fst (create_status_check Sim3.db "laptop" Sim3.empty) =
              inr (mkStatusCheck "id-0" "laptop" "2024-01-01T00:00:01"))
    by (vm_compute; reflexivity).
  split; [exact H |].
  apply (status_checks_round_trip Sim3.db "laptop" Sim3.empty
           (mkStatusCheck "id-0" "laptop" "2024-01-01T00:00:01")
           [mkStatusCheck "id-0" "laptop" "2024-01-01T00:00:01"]).
  - intros t. reflexivity.
  - exact H.
  - vm_compute. reflexivity.
Defined.

Lemma status_listing_fails_on_missing_timestamp_witness :
  exists e, get_status_checks Sim3.db Sim3.broken = (inl e, Sim3.broken).
Proof.
  apply (status_listing_fails_on_missing_timestamp Sim3.db Sim3.broken Sim3.broken
           [[("id", VStr "x"); ("client_name", VStr "y")]]
           [("id", VStr "x"); ("client_name", VStr "y")]).
  - reflexivity.
  - left. reflexivity.
  - reflexivity.
Defined.

Lemma status_listing_changes_only_timestamps_witness :
  Forall2 (fun stored given =>
             forall k, k <> "timestamp" ->
                       doc_get k given = doc_get k stored)
          [stored_doc Sim3.db (mkStatusCheck "id-0" "laptop" "2024")]
          [model_dump (mkStatusCheck "id-0" "laptop" "2024")].
Proof.
  apply (status_listing_changes_only_timestamps Sim3.db
           (1, [stored_doc Sim3.db (mkStatusCheck "id-0" "laptop" "2024")])
           (1, [stored_doc Sim3.db (mkStatusCheck "id-0" "laptop" "2024")])).
  - reflexivity.
  - reflexivity.
Defined.
